(** * Replication monitor: a shallow embedding of [replication_monitor.py]

    The monitor polls one primary and two replica PostgreSQL servers,
    compares row counts and maximal ids of the [replication_test] table,
    records a status snapshot per poll and raises an alert whenever a
    replica is ten or more records behind.

    Layout of the development:
    - [Py]       : the fragments of Python the script relies on
                   (exceptions, [str] of an int, [{:,}], [upper], slices);
    - data model : alerts, replica status entries, snapshots;
    - [Driver]   : the interface of the external collaborators
                   (psycopg2, [datetime], [time]);
    - the methods of [ReplicationMonitor], in source order, written in a
      state-and-exception monad over the monitor object;
    - [PgSim]    : an executable PostgreSQL stand-in implementing [Driver],
                   with an interpreter for the SQL the script sends;
    - the properties of the specification. *)

From Stdlib Require Import ZArith Bool Ascii String List Lia.
From Stdlib Require Import DecimalString.
From stdpp Require Import base option list gmap strings.

#[local] Set Warnings "-clear-no-such-hyp".

Local Open Scope Z_scope.

(* ===================================================================== *)
(** * Python fragments *)
(* ===================================================================== *)

Module Py.

(** An exception instance: its class name and [str(e)]. Every exception
    the model raises is an instance of [Exception] (psycopg2 errors,
    [KeyError]), which is what [except Exception] catches. *)
Record exn : Type := Exception { exn_class : string; exn_str : string }.

Inductive outcome (A : Type) : Type :=
| Ok (a : A)
| Raise (e : exn).
Arguments Ok {A} a.
Arguments Raise {A} e.

(** [str(n)] for an int. *)
Definition str (n : Z) : string := NilZero.string_of_int (Z.to_int n).

(** [x or 0] where [x] is an int or [None]. *)
Definition or_zero (x : option Z) : Z :=
  match x with
  | Some v => if v =? 0 then 0 else v
  | None => 0
  end.

(** [s[:n]] *)
Definition str_take (n : nat) (s : string) : string := String.substring 0 n s.

(** [a > b] on strings: lexicographic on code points. *)
Definition str_gt (a b : string) : bool := String.ltb b a.

Definition upper_ascii (c : ascii) : ascii :=
  let n := nat_of_ascii c in
  if (Nat.leb 97 n && Nat.leb n 122)%bool then ascii_of_nat (n - 32) else c.

(** [s.upper()] on ASCII text. *)
Fixpoint upper (s : string) : string :=
  match s with
  | EmptyString => EmptyString
  | String c s' => String (upper_ascii c) (upper s')
  end.

(** Digits of a natural number grouped by three from the right. *)
Fixpoint group3 (rev_digits : list ascii) : list ascii :=
  match rev_digits with
  | a :: b :: c :: ((_ :: _) as rest) => a :: b :: c :: ","%char :: group3 rest
  | short => short
  end.

Definition digits (n : Z) : list ascii :=
  list_ascii_of_string (NilZero.string_of_uint (N.to_uint (Z.to_N (Z.abs n)))).

(** [f"{n:,}"] *)
Definition fmt_thousands (n : Z) : string :=
  let body := string_of_list_ascii (rev (group3 (rev (digits n)))) in
  if n <? 0 then String "-"%char body else body.

End Py.
Export Py.

(* ===================================================================== *)
(** * Data model *)
(* ===================================================================== *)

(** One entry of [self.regions]. *)
Inductive Role : Type := primary | replica.

Record RegionConfig : Type := {
  host : string;
  port : Z;
  role : Role;
}.

Definition role_str (r : Role) : string :=
  match r with primary => "primary" | replica => "replica" end.

(** The ['severity'] field of an alert. *)
Inductive Severity : Type := WARNING | CRITICAL.

(** The dict built by [create_alert]. *)
Record Alert : Type := {
  alert_timestamp : string;
  alert_region : string;
  alert_severity : Severity;
  alert_message : string;
  alert_lag_count : Z;
}.

(** The ['primary'] entry of a snapshot. *)
Record PrimaryStatus : Type := {
  primary_region : string;
  primary_record_count : Z;
  primary_max_id : Z;
}.

(** A replica entry is one of two dicts: the measured one (lines 132-139)
    or the one with an ['error'] key (lines 148-152). *)
Record ReplicaMetrics : Type := {
  region : string;
  record_count : Z;
  max_id : Z;
  lag_records : Z;
  lag_ids : Z;
  is_healthy : bool;
}.

Record ReplicaFailure : Type := {
  failed_region : string;
  error : string;
  failed_is_healthy : bool;
}.

Inductive ReplicaStatus : Type :=
| Measured (m : ReplicaMetrics)
| Failed (f : ReplicaFailure).

(** ['error' in replica] *)
Definition has_error (r : ReplicaStatus) : bool :=
  match r with Measured _ => false | Failed _ => true end.

(** [replica['region']] and [replica['is_healthy']], present in both dicts. *)
Definition status_region (r : ReplicaStatus) : string :=
  match r with Measured m => region m | Failed f => failed_region f end.

Definition status_is_healthy (r : ReplicaStatus) : bool :=
  match r with Measured m => is_healthy m | Failed f => failed_is_healthy f end.

(** The dict built by [check_replication_status]. *)
Record StatusSnapshot : Type := {
  timestamp : string;
  primary_status : PrimaryStatus;
  replicas : list ReplicaStatus;
}.

(** [status['replicas'].append(entry)] *)
Definition append_replica (status : StatusSnapshot) (entry : ReplicaStatus)
  : StatusSnapshot :=
  {| timestamp := timestamp status;
     primary_status := primary_status status;
     replicas := replicas status ++ [entry] |}.

(** Records emitted through [logger]. *)
Inductive Level : Type := INFO | WARN | ERROR.

Record LogRecord : Type := { level : Level; text : string }.

(** Method entries and sleeps, in the order they happen. This is ghost
    state: the script keeps no such list, it only serves to state which
    methods a run invokes. *)
Inductive Call : Type :=
| Call_connect_all
| Call_setup_primary
| Call_simulate_writes (count : Z)
| Call_check_replication_status
| Call_print_status
| Call_sleep (seconds : Z).

(* ===================================================================== *)
(** * The SQL the script sends *)
(* ===================================================================== *)

Inductive table : Type := replication_test | transactions.

Inductive statement : Type :=
| DROP_TABLE_IF_EXISTS (t : table)
| CREATE_TABLE (t : table)
  (** [INSERT INTO transactions (amount)
       SELECT (random() * 1000)::DECIMAL(10,2) FROM generate_series(lo, hi)] *)
| INSERT_transactions_series (lo hi : Z)
  (** [INSERT INTO replication_test (region, data) VALUES (%s, %s)] *)
| INSERT_replication_test (region data : string).

(* ===================================================================== *)
(** * External collaborators *)
(* ===================================================================== *)

(** What the script uses of psycopg2, [datetime] and [time]. [W] is the
    state of everything outside the monitor object: the three servers,
    the network and the clocks. A query is [cursor.execute(sql)] followed
    by [cursor.fetchone()[0]]; [SELECT COUNT( * )] yields an int and
    [SELECT MAX(id)] an int or [None]. Nothing is assumed about how the
    operations behave: any of the fallible ones may raise at any time and
    the servers may change between two calls. *)
Class Driver (W Conn Cursor : Type) : Type := {
  (** [psycopg2.connect(host=, port=, dbname=, user=, password=)] *)
  pg_connect : string -> Z -> string -> string -> string -> W -> outcome Conn * W;
  (** [conn.autocommit = True] *)
  pg_set_autocommit : Conn -> bool -> W -> outcome unit * W;
  (** [conn.cursor()] *)
  pg_cursor : Conn -> W -> outcome Cursor * W;
  (** [cursor.execute(script)] for a script that returns no rows *)
  pg_execute : Cursor -> list statement -> W -> outcome unit * W;
  (** [cursor.execute("SELECT COUNT( * ) FROM t"); cursor.fetchone()[0]] *)
  pg_select_count : Cursor -> table -> W -> outcome Z * W;
  (** [cursor.execute("SELECT MAX(id) FROM t"); cursor.fetchone()[0]] *)
  pg_select_max_id : Cursor -> table -> W -> outcome (option Z) * W;
  (** [cursor.close()], which only marks the client-side object closed *)
  pg_cursor_close : Cursor -> W -> W;
  (** [datetime.now().isoformat()] *)
  now_isoformat : W -> string * W;
  (** [str(datetime.now())] *)
  now_str : W -> string * W;
  (** [time.time()], in milliseconds *)
  time_time : W -> Z * W;
  (** [time.sleep(seconds)] *)
  time_sleep : Z -> W -> W;
}.

(* ===================================================================== *)
(** * The monitor object and its monad *)
(* ===================================================================== *)

(** The fields of a [ReplicationMonitor] instance together with the rest
    of the process: the outside world, the log stream, standard output
    and the ghost call list. *)
Record State (W Conn : Type) : Type := {
  regions : list (string * RegionConfig);
  connections : gmap string Conn;
  metrics_history : list StatusSnapshot;
  alerts : list Alert;
  world : W;
  log : list LogRecord;
  stdout : list string;
  calls : list Call;
}.
Arguments regions {W Conn} _.
Arguments connections {W Conn} _.
Arguments metrics_history {W Conn} _.
Arguments alerts {W Conn} _.
Arguments world {W Conn} _.
Arguments log {W Conn} _.
Arguments stdout {W Conn} _.
Arguments calls {W Conn} _.

Section Monitor.

Context {W Conn Cursor : Type} `{!Driver W Conn Cursor}.

Abbreviation St := (State W Conn).

Definition with_connections (c : gmap string Conn) (st : St) : St :=
  {| regions := regions st; connections := c;
     metrics_history := metrics_history st; alerts := alerts st;
     world := world st; log := log st; stdout := stdout st;
     calls := calls st |}.

Definition with_metrics_history (h : list StatusSnapshot) (st : St) : St :=
  {| regions := regions st; connections := connections st;
     metrics_history := h; alerts := alerts st;
     world := world st; log := log st; stdout := stdout st;
     calls := calls st |}.

Definition with_alerts (a : list Alert) (st : St) : St :=
  {| regions := regions st; connections := connections st;
     metrics_history := metrics_history st; alerts := a;
     world := world st; log := log st; stdout := stdout st;
     calls := calls st |}.

Definition with_world (w : W) (st : St) : St :=
  {| regions := regions st; connections := connections st;
     metrics_history := metrics_history st; alerts := alerts st;
     world := w; log := log st; stdout := stdout st;
     calls := calls st |}.

Definition with_log (l : list LogRecord) (st : St) : St :=
  {| regions := regions st; connections := connections st;
     metrics_history := metrics_history st; alerts := alerts st;
     world := world st; log := l; stdout := stdout st;
     calls := calls st |}.

Definition with_stdout (o : list string) (st : St) : St :=
  {| regions := regions st; connections := connections st;
     metrics_history := metrics_history st; alerts := alerts st;
     world := world st; log := log st; stdout := o;
     calls := calls st |}.

Definition with_calls (c : list Call) (st : St) : St :=
  {| regions := regions st; connections := connections st;
     metrics_history := metrics_history st; alerts := alerts st;
     world := world st; log := log st; stdout := stdout st;
     calls := c |}.

(** A computation reads and updates the state and either returns or
    raises; what it did to the state before raising stays done. *)
Definition M (A : Type) : Type := St -> outcome A * St.

Definition ret {A} (a : A) : M A := fun st => (Ok a, st).

Definition bind {A B} (m : M A) (k : A -> M B) : M B :=
  fun st =>
    match m st with
    | (Ok a, st') => k a st'
    | (Raise e, st') => (Raise e, st')
    end.

Definition raise {A} (e : exn) : M A := fun st => (Raise e, st).

(** [try: body  except Exception as e: handler(e)] *)
Definition try_except {A} (body : M A) (handler : exn -> M A) : M A :=
  fun st =>
    match body st with
    | (Ok a, st') => (Ok a, st')
    | (Raise e, st') => handler e st'
    end.

Definition gets {A} (f : St -> A) : M A := fun st => (Ok (f st), st).

Definition modify (f : St -> St) : M unit := fun st => (Ok tt, f st).

(** A fallible call into the outside world. *)
Definition call {A} (op : W -> outcome A * W) : M A :=
  fun st => let (r, w) := op (world st) in (r, with_world w st).

(** A call into the outside world that always returns. *)
Definition call_total {A} (op : W -> A * W) : M A :=
  fun st => let (a, w) := op (world st) in (Ok a, with_world w st).

Definition call_unit (op : W -> W) : M unit :=
  fun st => (Ok tt, with_world (op (world st)) st).

End Monitor.

Declare Scope monitor_scope.
Delimit Scope monitor_scope with monitor.
Notation "x <- m ;; k" := (bind m (fun x => k))
  (at level 100, m at next level, right associativity) : monitor_scope.
Notation "m ;; k" := (bind m (fun _ => k))
  (at level 100, right associativity) : monitor_scope.

Local Open Scope monitor_scope.

(* ===================================================================== *)
(** * The methods of [ReplicationMonitor] *)
(* ===================================================================== *)

Definition nl : string := String (ascii_of_nat 10) EmptyString.

(** ["=" * 80] *)
Definition rule : string := string_of_list_ascii (List.repeat "="%char 80).

(** [self.regions] as set by [__init__]; a dict literal, in its order. *)
Definition default_regions : list (string * RegionConfig) :=
  [ ("us-west", {| host := "localhost"; port := 5441; role := primary |});
    ("us-east", {| host := "localhost"; port := 5442; role := replica |});
    ("eu-west", {| host := "localhost"; port := 5443; role := replica |}) ].

(** The script of [setup_primary], lines 55-75. *)
Definition setup_script : list statement :=
  [ DROP_TABLE_IF_EXISTS replication_test;
    DROP_TABLE_IF_EXISTS transactions;
    CREATE_TABLE replication_test;
    CREATE_TABLE transactions;
    INSERT_transactions_series 1 1000 ].

Section Methods.

Context {W Conn Cursor : Type} `{!Driver W Conn Cursor}.

Abbreviation St := (State W Conn).
Abbreviation M := (@M W Conn).

(** [ReplicationMonitor()] in a process whose surroundings are [w]. *)
Definition init (w : W) : St :=
  {| regions := default_regions; connections := ∅;
     metrics_history := []; alerts := [];
     world := w; log := []; stdout := []; calls := [] |}.

Definition enter (c : Call) : M unit :=
  modify (fun st => with_calls (calls st ++ [c]) st).

Definition logger (l : Level) (msg : string) : M unit :=
  modify (fun st => with_log (log st ++ [{| level := l; text := msg |}]) st).

Definition print (line : string) : M unit :=
  modify (fun st => with_stdout (stdout st ++ [line]) st).

(** [time.sleep(seconds)] *)
Definition sleep (seconds : Z) : M unit :=
  enter (Call_sleep seconds) ;; call_unit (time_sleep seconds).

(** [self.connections[region]], a [KeyError] when the key is absent. *)
Definition connection (region : string) : M Conn :=
  fun st =>
    match connections st !! region with
    | Some c => (Ok c, st)
    | None =>
        (Raise {| exn_class := "KeyError";
                  exn_str := "'" +:+ region +:+ "'" |}, st)
    end.

(** [for x in l: body(x)] with a loop-carried value. *)
Fixpoint for_each {A B} (l : list A) (body : A -> B -> M B) (acc : B) : M B :=
  match l with
  | [] => ret acc
  | x :: l' => acc' <- body x acc ;; for_each l' body acc'
  end.

Definition for_ {A} (l : list A) (body : A -> M unit) : M unit :=
  for_each l (fun x _ => body x) tt.

(** ** [connect_all], lines 29-47 *)

Definition connect_region (entry : string * RegionConfig) : M unit :=
  let (region, config) := entry in
  try_except
    (conn <- call (pg_connect (host config) (port config)
                     "replication_db" "postgres" "postgres") ;;
     call (pg_set_autocommit conn true) ;;
     modify (fun st => with_connections (<[region := conn]> (connections st)) st) ;;
     logger INFO ("Connected to " +:+ region +:+ " ("
                  +:+ role_str (role config) +:+ ")"))
    (fun e =>
       logger ERROR ("Failed to connect to " +:+ region +:+ ": " +:+ exn_str e)).

Definition connect_all : M bool :=
  enter Call_connect_all ;;
  logger INFO "Connecting to all regions..." ;;
  items <- gets regions ;;
  for_ items connect_region ;;
  gets (fun st => Nat.eqb (size (connections st)) (length (regions st))).

(** ** [setup_primary], lines 49-78 *)

Definition setup_primary : M unit :=
  enter Call_setup_primary ;;
  logger INFO "Setting up primary database..." ;;
  conn <- connection "us-west" ;;
  cursor <- call (pg_cursor conn) ;;
  call (pg_execute cursor setup_script) ;;
  call_unit (pg_cursor_close cursor) ;;
  logger INFO "Primary database initialized with test data".

(** ** [simulate_writes], lines 80-92 *)

Definition simulate_writes (count : Z) : M unit :=
  enter (Call_simulate_writes count) ;;
  conn <- connection "us-west" ;;
  cursor <- call (pg_cursor conn) ;;
  for_ (seqZ 0 count) (fun i =>
    now <- call_total now_str ;;
    call (pg_execute cursor
            [INSERT_replication_test "us-west"
               ("Test data " +:+ Py.str i +:+ " at " +:+ now)])) ;;
  call_unit (pg_cursor_close cursor) ;;
  logger INFO ("Wrote " +:+ Py.str count +:+ " records to primary").

(** ** [create_alert], lines 159-169 *)

Definition create_alert (region : string) (lag : Z) : M unit :=
  now <- call_total now_isoformat ;;
  let alert :=
    {| alert_timestamp := now;
       alert_region := region;
       alert_severity := if lag <? 50 then WARNING else CRITICAL;
       alert_message := "High replication lag detected: " +:+ Py.str lag
                        +:+ " records behind";
       alert_lag_count := lag |} in
  modify (fun st => with_alerts (alerts st ++ [alert]) st) ;;
  logger WARN ("ALERT: " +:+ region +:+ " has " +:+ Py.str lag
               +:+ " records lag").

(** ** [check_replication_status], lines 94-157 *)

(** The body of the [for region in ['us-east', 'eu-west']] loop, lines
    119-154. The connection lookup, [cursor()] and [close()] are
    outside the [try]. Inside it the entry is appended before the
    alert is raised; [create_alert] never raises, so the handler never
    runs after that append. *)
Definition check_replica (primary_count primary_max_id : Z)
    (region : string) (status : StatusSnapshot) : M StatusSnapshot :=
  replica_conn <- connection region ;;
  replica_cursor <- call (pg_cursor replica_conn) ;;
  status <-
    try_except
      (replica_count <- call (pg_select_count replica_cursor replication_test) ;;
       fetched <- call (pg_select_max_id replica_cursor replication_test) ;;
       let replica_max_id := or_zero fetched in
       let lag_records := primary_count - replica_count in
       let lag_ids := primary_max_id - replica_max_id in
       let replica_status :=
         {| region := region;
            record_count := replica_count;
            max_id := replica_max_id;
            lag_records := lag_records;
            lag_ids := lag_ids;
            is_healthy := lag_records <? 10 |} in
       let status := append_replica status (Measured replica_status) in
       (if negb (is_healthy replica_status)
        then create_alert region lag_records
        else ret tt) ;;
       ret status)
      (fun e =>
         logger ERROR ("Error checking " +:+ region +:+ ": " +:+ exn_str e) ;;
         ret (append_replica status
                (Failed {| failed_region := region;
                           error := exn_str e;
                           failed_is_healthy := false |}))) ;;
  call_unit (pg_cursor_close replica_cursor) ;;
  ret status.

Definition check_replication_status : M StatusSnapshot :=
  enter Call_check_replication_status ;;
  primary_conn <- connection "us-west" ;;
  primary_cursor <- call (pg_cursor primary_conn) ;;
  primary_count <- call (pg_select_count primary_cursor replication_test) ;;
  fetched <- call (pg_select_max_id primary_cursor replication_test) ;;
  let primary_max_id := or_zero fetched in
  call_unit (pg_cursor_close primary_cursor) ;;
  now <- call_total now_isoformat ;;
  let status :=
    {| timestamp := now;
       primary_status := {| primary_region := "us-west";
                            primary_record_count := primary_count;
                            primary_max_id := primary_max_id |};
       replicas := [] |} in
  status <- for_each ["us-east"; "eu-west"]
              (check_replica primary_count primary_max_id) status ;;
  modify (fun st => with_metrics_history (metrics_history st ++ [status]) st) ;;
  ret status.

End Methods.

Section Reporting.

Context {W Conn Cursor : Type} `{!Driver W Conn Cursor}.

Abbreviation M := (@M W Conn).

(** ** [print_status], lines 171-202 *)

Definition print_replica (entry : ReplicaStatus) : M unit :=
  match entry with
  | Failed f =>
      print (nl +:+ "  " +:+ upper (failed_region f) +:+ ": ERROR") ;;
      print ("    " +:+ error f)
  | Measured m =>
      let health := if is_healthy m then "HEALTHY" else "LAGGING" in
      print (nl +:+ "  " +:+ upper (region m) +:+ ": " +:+ health) ;;
      print ("    Records: " +:+ fmt_thousands (record_count m)) ;;
      print ("    Max ID: " +:+ fmt_thousands (max_id m)) ;;
      print ("    Lag: " +:+ Py.str (lag_records m) +:+ " records") ;;
      if 0 <? lag_records m
      then print ("    Status: Behind by " +:+ Py.str (lag_records m)
                  +:+ " records")
      else ret tt
  end.

Definition print_status (status : StatusSnapshot) : M unit :=
  enter Call_print_status ;;
  print (nl +:+ rule) ;;
  print ("MULTI-REGION REPLICATION STATUS - " +:+ str_take 19 (timestamp status)) ;;
  print rule ;;
  print (nl +:+ "PRIMARY (us-west):") ;;
  print ("  Total Records: "
         +:+ fmt_thousands (primary_record_count (primary_status status))) ;;
  print ("  Max ID: " +:+ fmt_thousands (primary_max_id (primary_status status))) ;;
  print (nl +:+ "REPLICAS:") ;;
  for_ (replicas status) print_replica ;;
  all_alerts <- gets alerts ;;
  (match all_alerts with
   | [] => ret tt
   | _ :: _ =>
       let recent_alerts :=
         List.filter
           (fun a => str_gt (alert_timestamp a) (str_take 19 (timestamp status)))
           all_alerts in
       match recent_alerts with
       | [] => ret tt
       | _ :: _ =>
           print (nl +:+ "ACTIVE ALERTS: "
                  +:+ Py.str (Z.of_nat (length recent_alerts)))
       end
   end) ;;
  print rule.

(** ** [run_monitoring], lines 204-248 *)

(** The body of the [while] loop, lines 224-234, for the already
    incremented [iteration]. *)
Definition monitoring_tick (iteration : Z) : M unit :=
  (if iteration mod 2 =? 0 then simulate_writes 5 else ret tt) ;;
  status <- check_replication_status ;;
  (if iteration mod 2 =? 0 then print_status status else ret tt) ;;
  sleep 5.

(** The [while] loop. [fuel] bounds the number of iterations; [None]
    means the bound was reached with the loop condition still true. The
    result is the final value of [iteration]. *)
Fixpoint monitoring_loop (fuel : nat) (duration start_time iteration : Z)
    (st : State W Conn) : option (outcome Z * State W Conn) :=
  match call_total time_time st with
  | (Raise e, st1) => Some (Raise e, st1)
  | (Ok t, st1) =>
      if t - start_time <? duration * 1000 then
        match fuel with
        | O => None
        | S fuel' =>
            let iteration := iteration + 1 in
            match monitoring_tick iteration st1 with
            | (Raise e, st2) => Some (Raise e, st2)
            | (Ok _, st2) =>
                monitoring_loop fuel' duration start_time iteration st2
            end
        end
      else Some (Ok iteration, st1)
  end.

(** [self.alerts[-5:]] *)
Definition last5 (l : list Alert) : list Alert := drop (length l - 5)%nat l.

(** Lines 236-248. *)
Definition print_summary (duration : Z) : M unit :=
  print (nl +:+ rule) ;;
  print "MONITORING SUMMARY" ;;
  print rule ;;
  print ("Duration: " +:+ Py.str duration +:+ "s") ;;
  history <- gets metrics_history ;;
  print ("Metrics Collected: " +:+ Py.str (Z.of_nat (length history))) ;;
  all_alerts <- gets alerts ;;
  print ("Total Alerts: " +:+ Py.str (Z.of_nat (length all_alerts))) ;;
  (match all_alerts with
   | [] => ret tt
   | _ :: _ =>
       print (nl +:+ "Alert Summary:") ;;
       for_ (last5 all_alerts) (fun alert =>
         print ("  [" +:+ str_take 19 (alert_timestamp alert) +:+ "] "
                +:+ alert_region alert +:+ ": " +:+ alert_message alert))
   end) ;;
  print rule.

(** Lines 207-209. *)
Definition print_banner : M unit :=
  print (nl +:+ rule) ;;
  print "MULTI-REGION REPLICATION MONITOR" ;;
  print rule.

(** Lines 207-220: everything before the loop. The result is
    [Some start_time], or [None] after the early [return]. *)
Definition run_prologue : M (option Z) :=
  print_banner ;;
  connected <- connect_all ;;
  if negb connected then
    logger ERROR "Failed to connect to all regions" ;;
    ret None
  else
    setup_primary ;;
    logger INFO "Waiting for initial replication..." ;;
    sleep 3 ;;
    start_time <- call_total time_time ;;
    ret (Some start_time).

Definition run_monitoring (fuel : nat) (duration : Z) (st : State W Conn)
    : option (outcome unit * State W Conn) :=
  match run_prologue st with
  | (Raise e, st1) => Some (Raise e, st1)
  | (Ok None, st1) => Some (Ok tt, st1)
  | (Ok (Some start_time), st1) =>
      match monitoring_loop fuel duration start_time 0 st1 with
      | None => None
      | Some (Raise e, st2) => Some (Raise e, st2)
      | Some (Ok _, st2) => Some (print_summary duration st2)
      end
  end.

End Reporting.

(** ** [main], lines 251-253 *)

Section EntryPoint.

Context {W Conn Cursor : Type} `{!Driver W Conn Cursor}.

(** [ReplicationMonitor().run_monitoring(duration=30)] in a process whose
    surroundings are [w]. *)
Definition main (fuel : nat) (w : W) : option (outcome unit * State W Conn) :=
  run_monitoring fuel 30 (init w).

End EntryPoint.

(* ===================================================================== *)
(** * An executable PostgreSQL stand-in *)
(* ===================================================================== *)

(** Three servers reachable by port, each holding the two tables of the
    script, and one wall clock. It interprets the SQL of the script with
    PostgreSQL's meaning: [DROP TABLE IF EXISTS] also drops the table's
    [SERIAL] sequence, [CREATE TABLE] fails on an existing table, a script
    sent in one [execute] is one transaction, [MAX] over no rows is
    [NULL]. Servers do not replicate by themselves: a replica holds
    whatever the world given to a run puts there. *)
Module PgSim.

Record TestRow : Type := {
  id : Z;
  row_region : string;
  row_timestamp : Z;
  data : string;
}.

Record TxnRow : Type := {
  txn_id : Z;
  amount : Z;          (* in hundredths *)
  created_at : Z;
}.

(** A table and the next value of its [SERIAL] column. *)
Record Table (R : Type) : Type := {
  rows : list R;
  next_serial : Z;
}.
Arguments rows {R} _.
Arguments next_serial {R} _.

Record Database : Type := {
  test_table : option (Table TestRow);
  txn_table : option (Table TxnRow);
}.

(** [random_amounts] is the sequence of values [(random() * 1000)] takes
    on this server, [drawn] how many have been used. *)
Record Server : Type := {
  online : bool;
  database : Database;
  random_amounts : nat -> Z;
  drawn : nat;
}.

Record World : Type := {
  servers : gmap Z Server;
  clock : Z;            (* milliseconds *)
}.

Definition table_str (t : table) : string :=
  match t with
  | replication_test => "replication_test"
  | transactions => "transactions"
  end.

Definition undefined_table (t : table) : exn :=
  {| exn_class := "UndefinedTable";
     exn_str := "relation " +:+ table_str t +:+ " does not exist" |}.

Definition duplicate_table (t : table) : exn :=
  {| exn_class := "DuplicateTable";
     exn_str := "relation " +:+ table_str t +:+ " already exists" |}.

Definition operational_error (msg : string) : exn :=
  {| exn_class := "OperationalError"; exn_str := msg |}.

Definition with_database (d : Database) (s : Server) : Server :=
  {| online := online s; database := d;
     random_amounts := random_amounts s; drawn := drawn s |}.

(** Rows [generate_series] adds to [transactions]: one per value,
    numbered by the sequence. *)
Fixpoint series_rows (n : nat) (serial : Z) (amounts : nat -> Z) (pos : nat)
    (now : Z) : list TxnRow :=
  match n with
  | O => []
  | S n' =>
      {| txn_id := serial; amount := amounts pos; created_at := now |}
        :: series_rows n' (serial + 1) amounts (S pos) now
  end.

Definition exec_statement (now : Z) (s : statement) (srv : Server)
    : outcome Server :=
  let db := database srv in
  match s with
  | DROP_TABLE_IF_EXISTS replication_test =>
      Ok (with_database {| test_table := None; txn_table := txn_table db |} srv)
  | DROP_TABLE_IF_EXISTS transactions =>
      Ok (with_database {| test_table := test_table db; txn_table := None |} srv)
  | CREATE_TABLE replication_test =>
      match test_table db with
      | Some _ => Raise (duplicate_table replication_test)
      | None =>
          Ok (with_database
                {| test_table := Some {| rows := []; next_serial := 1 |};
                   txn_table := txn_table db |} srv)
      end
  | CREATE_TABLE transactions =>
      match txn_table db with
      | Some _ => Raise (duplicate_table transactions)
      | None =>
          Ok (with_database
                {| test_table := test_table db;
                   txn_table := Some {| rows := []; next_serial := 1 |} |} srv)
      end
  | INSERT_transactions_series lo hi =>
      match txn_table db with
      | None => Raise (undefined_table transactions)
      | Some t =>
          let n := Z.to_nat (hi - lo + 1) in
          let added :=
            series_rows n (next_serial t) (random_amounts srv) (drawn srv) now in
          Ok {| online := online srv;
                database :=
                  {| test_table := test_table db;
                     txn_table :=
                       Some {| rows := rows t ++ added;
                               next_serial := next_serial t + Z.of_nat n |} |};
                random_amounts := random_amounts srv;
                drawn := (drawn srv + n)%nat |}
      end
  | INSERT_replication_test r d =>
      match test_table db with
      | None => Raise (undefined_table replication_test)
      | Some t =>
          let row := {| id := next_serial t; row_region := r;
                        row_timestamp := now; data := d |} in
          Ok (with_database
                {| test_table := Some {| rows := rows t ++ [row];
                                         next_serial := next_serial t + 1 |};
                   txn_table := txn_table db |} srv)
      end
  end.

(** Statements of one [execute] in order; the first failure ends the
    script. *)
Fixpoint exec_script (now : Z) (script : list statement) (srv : Server)
    : outcome Server :=
  match script with
  | [] => Ok srv
  | s :: rest =>
      match exec_statement now s srv with
      | Ok srv' => exec_script now rest srv'
      | Raise e => Raise e
      end
  end.

(** The server behind a connection, when it answers. *)
Definition reach (p : Z) (w : World) : outcome Server :=
  match servers w !! p with
  | Some srv =>
      if online srv then Ok srv
      else Raise (operational_error "server closed the connection unexpectedly")
  | None => Raise (operational_error "connection refused")
  end.

Definition connect (h : string) (p : Z) (dbname user password : string)
    (w : World) : outcome Z * World :=
  match reach p w with
  | Ok _ => (Ok p, w)
  | Raise _ => (Raise (operational_error "connection refused"), w)
  end.

(** A failed script leaves the server as it was (rollback). *)
Definition execute (cur : Z) (script : list statement) (w : World)
    : outcome unit * World :=
  match reach cur w with
  | Raise e => (Raise e, w)
  | Ok srv =>
      match exec_script (clock w) script srv with
      | Raise e => (Raise e, w)
      | Ok srv' =>
          (Ok tt, {| servers := <[cur := srv']> (servers w); clock := clock w |})
      end
  end.

Definition count_rows (t : table) (db : Database) : option Z :=
  match t with
  | replication_test => (fun tb => Z.of_nat (length (rows tb))) <$> test_table db
  | transactions => (fun tb => Z.of_nat (length (rows tb))) <$> txn_table db
  end.

(** [MAX] of a column: [NULL] over no rows. *)
Definition max_of (l : list Z) : option Z :=
  match l with
  | [] => None
  | x :: l' => Some (fold_left Z.max l' x)
  end.

Definition max_key (t : table) (db : Database) : option (option Z) :=
  match t with
  | replication_test => (fun tb => max_of (map id (rows tb))) <$> test_table db
  | transactions => (fun tb => max_of (map txn_id (rows tb))) <$> txn_table db
  end.


Definition select_count (cur : Z) (t : table) (w : World) : outcome Z * World :=
  match reach cur w with
  | Raise e => (Raise e, w)
  | Ok srv =>
      match count_rows t (database srv) with
      | Some n => (Ok n, w)
      | None => (Raise (undefined_table t), w)
      end
  end.

Definition select_max_id (cur : Z) (t : table) (w : World)
    : outcome (option Z) * World :=
  match reach cur w with
  | Raise e => (Raise e, w)
  | Ok srv =>
      match max_key t (database srv) with
      | Some m => (Ok m, w)
      | None => (Raise (undefined_table t), w)
      end
  end.

Definition two_digits (n : Z) : string :=
  if n <? 10 then "0" +:+ Py.str n else Py.str n.

Definition three_digits (n : Z) : string :=
  if n <? 10 then "00" +:+ Py.str n
  else if n <? 100 then "0" +:+ Py.str n else Py.str n.

(** The clock as a time of day on one fixed date; like [isoformat], the
    fraction is left out when it is zero. *)
Definition render (sep : string) (t : Z) : string :=
  let ms := t mod 1000 in
  let s := t / 1000 in
  "1970-01-01" +:+ sep +:+ two_digits (s / 3600) +:+ ":"
    +:+ two_digits (s / 60 mod 60) +:+ ":" +:+ two_digits (s mod 60)
    +:+ (if ms =? 0 then "" else "." +:+ three_digits ms +:+ "000").

#[global] Instance driver : Driver World Z Z := {|
  pg_connect := connect;
  pg_set_autocommit := fun _ _ w => (Ok tt, w);
  pg_cursor := fun c w => (Ok c, w);
  pg_execute := execute;
  pg_select_count := select_count;
  pg_select_max_id := select_max_id;
  pg_cursor_close := fun _ w => w;
  now_isoformat := fun w => (render "T" (clock w), w);
  now_str := fun w => (render " " (clock w), w);
  time_time := fun w => (clock w, w);
  time_sleep := fun s w => {| servers := servers w; clock := clock w + 1000 * s |};
|}.

(** A server with the given rows in [replication_test] and no
    [transactions] table. *)
Definition test_rows (n : nat) : list TestRow :=
  map (fun i => {| id := Z.of_nat i; row_region := "us-west";
                   row_timestamp := 0; data := "" |}) (seq 1 n).

Definition server_with (n : nat) : Server :=
  {| online := true;
     database := {| test_table := Some {| rows := test_rows n;
                                          next_serial := Z.of_nat n + 1 |};
                    txn_table := None |};
     random_amounts := fun i => Z.of_nat i;
     drawn := 0 |}.

Definition empty_server : Server :=
  {| online := true;
     database := {| test_table := None; txn_table := None |};
     random_amounts := fun i => Z.of_nat i;
     drawn := 0 |}.

Definition offline (s : Server) : Server :=
  {| online := false; database := database s;
     random_amounts := random_amounts s; drawn := drawn s |}.

(** A world with the three configured servers. *)
Definition world_of (west east eu : Server) (t : Z) : World :=
  {| servers := <[5441 := west]> (<[5442 := east]> (<[5443 := eu]> ∅));
     clock := t |}.

(** A monitor already connected to the three servers. *)
Definition connected (w : World) : State World Z :=
  with_connections
    (<["us-west" := 5441]> (<["us-east" := 5442]> (<["eu-west" := 5443]> ∅)))
    (init w).

End PgSim.

(** ** The Python fragments on examples *)

Example str_neg : Py.str (-12) = "-12". Proof. reflexivity. Qed.
Example fmt_thousands_1234567 : fmt_thousands 1234567 = "1,234,567".
Proof. reflexivity. Qed.
Example fmt_thousands_neg : fmt_thousands (-1000) = "-1,000".
Proof. reflexivity. Qed.
Example fmt_thousands_small : fmt_thousands 999 = "999".
Proof. reflexivity. Qed.
Example upper_region : upper "us-east" = "US-EAST". Proof. reflexivity. Qed.
Example str_take_short : str_take 19 "2024" = "2024". Proof. reflexivity. Qed.

(* ===================================================================== *)
(** * Reasoning about computations *)
(* ===================================================================== *)

Section Equations.

Context {W Conn Cursor : Type} `{!Driver W Conn Cursor}.

Abbreviation M := (@M W Conn).

Lemma bind_ok {A B} (m : M A) (k : A -> M B) st a st1 :
  m st = (Ok a, st1) -> bind m k st = k a st1.
Proof. intros E. unfold bind. now rewrite E. Qed.

Lemma bind_raise {A B} (m : M A) (k : A -> M B) st e st1 :
  m st = (Raise e, st1) -> bind m k st = (Raise e, st1).
Proof. intros E. unfold bind. now rewrite E. Qed.

Lemma bind_inv_ok {A B} (m : M A) (k : A -> M B) st b st2 :
  bind m k st = (Ok b, st2) ->
  exists a st1, m st = (Ok a, st1) /\ k a st1 = (Ok b, st2).
Proof.
  unfold bind. destruct (m st) as [[a | e] st1]; intros E.
  - now exists a, st1.
  - discriminate.
Qed.

Lemma try_except_ok {A} (body : M A) handler st a st1 :
  body st = (Ok a, st1) -> try_except body handler st = (Ok a, st1).
Proof. intros E. unfold try_except. now rewrite E. Qed.

Lemma try_except_raise {A} (body : M A) handler st e st1 :
  body st = (Raise e, st1) -> try_except body handler st = handler e st1.
Proof. intros E. unfold try_except. now rewrite E. Qed.

End Equations.

(** ** Relations every step of a computation respects *)

Section Frame.

Context {W Conn Cursor : Type} `{!Driver W Conn Cursor}.

Abbreviation St := (State W Conn).
Abbreviation M := (@M W Conn).

(** [m] takes every state to an [R]-related one, whether it returns or
    raises. *)
Definition steps (R : relation St) {A} (m : M A) : Prop :=
  forall st, R st (snd (m st)).

Variable R : relation St.
Hypothesis R_refl : forall st, R st st.
Hypothesis R_trans : forall a b c, R a b -> R b c -> R a c.

Lemma steps_ret {A} (a : A) : steps R (ret a).
Proof. intros st. apply R_refl. Qed.

Lemma steps_raise {A} e : steps R (@raise W Conn A e).
Proof. intros st. apply R_refl. Qed.

Lemma steps_gets {A} (f : St -> A) : steps R (gets f).
Proof. intros st. apply R_refl. Qed.

Lemma steps_connection r : steps R (connection r).
Proof.
  intros st. unfold connection.
  destruct (connections st !! r); apply R_refl.
Qed.

Lemma steps_bind {A B} (m : M A) (k : A -> M B) :
  steps R m -> (forall a, steps R (k a)) -> steps R (bind m k).
Proof.
  intros Hm Hk st. unfold bind. specialize (Hm st).
  destruct (m st) as [[a | e] st1]; simpl in *.
  - eapply R_trans; [exact Hm | apply Hk].
  - exact Hm.
Qed.

Lemma steps_try_except {A} (body : M A) handler :
  steps R body -> (forall e, steps R (handler e)) ->
  steps R (try_except body handler).
Proof.
  intros Hb Hh st. unfold try_except. specialize (Hb st).
  destruct (body st) as [[a | e] st1]; simpl in *.
  - exact Hb.
  - eapply R_trans; [exact Hb | apply Hh].
Qed.

Lemma steps_for_each {A B} (l : list A) (body : A -> B -> M B) acc :
  (forall x b, steps R (body x b)) -> steps R (for_each l body acc).
Proof.
  intros Hbody. revert acc.
  induction l as [| x l IH]; intros acc; simpl.
  - apply steps_ret.
  - apply steps_bind; [apply Hbody | exact IH].
Qed.

Lemma steps_for_ {A} (l : list A) (body : A -> M unit) :
  (forall x, steps R (body x)) -> steps R (for_ l body).
Proof. intros Hbody. apply steps_for_each. intros x _. apply Hbody. Qed.

Lemma steps_modify (f : St -> St) :
  (forall st, R st (f st)) -> steps R (modify f).
Proof. intros Hf st. apply Hf. Qed.

(** Relations that ignore the world, the log, the output and the call
    list are respected by every primitive except the three that assign
    [connections], [metrics_history] or [alerts]. *)
Hypothesis R_world : forall st w, R st (with_world w st).
Hypothesis R_log : forall st l, R st (with_log l st).
Hypothesis R_stdout : forall st o, R st (with_stdout o st).
Hypothesis R_calls : forall st c, R st (with_calls c st).

Lemma steps_call {A} (op : W -> outcome A * W) : steps R (call op).
Proof.
  intros st. unfold call. destruct (op (world st)) as [r w]. apply R_world.
Qed.

Lemma steps_call_total {A} (op : W -> A * W) : steps R (call_total op).
Proof.
  intros st. unfold call_total. destruct (op (world st)) as [r w]. apply R_world.
Qed.

Lemma steps_call_unit (op : W -> W) : steps R (call_unit op).
Proof. intros st. apply R_world. Qed.

Lemma steps_logger l msg : steps R (logger l msg).
Proof. apply steps_modify. intros st. apply R_log. Qed.

Lemma steps_print line : steps R (print line).
Proof. apply steps_modify. intros st. apply R_stdout. Qed.

Lemma steps_enter c : steps R (enter c).
Proof. apply steps_modify. intros st. apply R_calls. Qed.

Lemma steps_sleep s : steps R (sleep s).
Proof.
  apply steps_bind; [apply steps_enter | intros _; apply steps_call_unit].
Qed.

End Frame.

(** Decompose a computation along its binds, loops and branches. The
    properties of the relation are expected among the hypotheses;
    [on_modify] closes the goals left by assignments to the monitor's own
    fields. *)
Ltac frame_step on_modify :=
  intros;
  first
    [ solve [ first
        [ apply steps_ret | apply steps_gets | apply steps_connection
        | apply steps_logger | apply steps_print | apply steps_enter
        | apply steps_sleep | apply steps_call | apply steps_call_total
        | apply steps_call_unit ]; assumption ]
    | match goal with
      | H : _ |- steps _ _ => solve [apply H]
      end
    | apply steps_bind; [assumption | | ]
    | apply steps_try_except; [assumption | | ]
    | apply steps_for_; [assumption | assumption | ]
    | apply steps_for_each; [assumption | assumption | ]
    | solve [ apply steps_modify; on_modify ]
    | match goal with
      | |- steps _ (if ?b then _ else _) => destruct b
      | |- steps _ (match ?x with _ => _ end) => destruct x
      end
    | progress cbv zeta ].

Ltac frame on_modify := repeat (frame_step on_modify).

(** ** Computations that always return *)

Section Returning.

Context {W Conn Cursor : Type} `{!Driver W Conn Cursor}.

Abbreviation St := (State W Conn).
Abbreviation M := (@M W Conn).

(** [m] never raises, and takes every state to an [R]-related one. *)
Definition returns (R : relation St) {A} (m : M A) : Prop :=
  forall st, exists a st', m st = (Ok a, st') /\ R st st'.

Variable R : relation St.
Hypothesis R_refl : forall st, R st st.
Hypothesis R_trans : forall a b c, R a b -> R b c -> R a c.

Lemma returns_ret {A} (a : A) : returns R (ret a).
Proof. intros st. exists a, st. split; [reflexivity | apply R_refl]. Qed.

Lemma returns_gets {A} (f : St -> A) : returns R (gets f).
Proof. intros st. exists (f st), st. split; [reflexivity | apply R_refl]. Qed.

Lemma returns_bind {A B} (m : M A) (k : A -> M B) :
  returns R m -> (forall a, returns R (k a)) -> returns R (bind m k).
Proof.
  intros Hm Hk st. destruct (Hm st) as (a & st1 & E1 & H1).
  destruct (Hk a st1) as (b & st2 & E2 & H2).
  exists b, st2. rewrite (bind_ok _ _ _ _ _ E1).
  split; [exact E2 | eapply R_trans; eassumption].
Qed.

Lemma returns_for_each {A B} (l : list A) (body : A -> B -> M B) acc :
  (forall x b, returns R (body x b)) -> returns R (for_each l body acc).
Proof.
  intros Hbody. revert acc.
  induction l as [| x l IH]; intros acc; simpl.
  - apply returns_ret.
  - apply returns_bind; [apply Hbody | exact IH].
Qed.

Lemma returns_for_ {A} (l : list A) (body : A -> M unit) :
  (forall x, returns R (body x)) -> returns R (for_ l body).
Proof. intros Hbody. apply returns_for_each. intros x _. apply Hbody. Qed.

Lemma returns_modify (f : St -> St) :
  (forall st, R st (f st)) -> returns R (modify f).
Proof. intros Hf st. exists tt, (f st). split; [reflexivity | apply Hf]. Qed.

Hypothesis R_log : forall st l, R st (with_log l st).
Hypothesis R_stdout : forall st o, R st (with_stdout o st).

Lemma returns_logger l msg : returns R (logger l msg).
Proof. apply returns_modify. intros st. apply R_log. Qed.

Lemma returns_print line : returns R (print line).
Proof. apply returns_modify. intros st. apply R_stdout. Qed.

End Returning.

Ltac returns_step :=
  intros;
  first
    [ solve [ first
        [ apply returns_ret | apply returns_gets
        | apply returns_logger | apply returns_print ]; assumption ]
    | match goal with
      | H : forall _, returns _ _ |- returns _ _ => solve [apply H]
      | H : returns _ _ |- returns _ _ => exact H
      end
    | apply returns_bind; [assumption | | ]
    | apply returns_for_; [assumption | assumption | ]
    | apply returns_for_each; [assumption | assumption | ]
    | match goal with
      | |- returns _ (if ?b then _ else _) => destruct b
      | |- returns _ (match ?x with _ => _ end) => destruct x
      end
    | progress cbv zeta ].

(* ===================================================================== *)
(** * The alert list only grows *)
(* ===================================================================== *)

Section AlertList.

Context {W Conn Cursor : Type} `{!Driver W Conn Cursor}.

Abbreviation St := (State W Conn).

(** The alerts of [st] are still there, in place and unchanged. *)
Definition alerts_kept (st st' : St) : Prop :=
  alerts st `prefix_of` alerts st'.

Lemma alerts_kept_refl st : alerts_kept st st.
Proof. unfold alerts_kept. reflexivity. Qed.

Lemma alerts_kept_trans a b c :
  alerts_kept a b -> alerts_kept b c -> alerts_kept a c.
Proof. unfold alerts_kept. intros. etransitivity; eassumption. Qed.

Ltac alerts_frame :=
  pose proof alerts_kept_refl as Hrefl;
  pose proof alerts_kept_trans as Htrans;
  assert (Hw : forall (st : St) w, alerts_kept st (with_world w st))
    by (intros; unfold alerts_kept; simpl; reflexivity);
  assert (Hl : forall (st : St) l, alerts_kept st (with_log l st))
    by (intros; unfold alerts_kept; simpl; reflexivity);
  assert (Ho : forall (st : St) o, alerts_kept st (with_stdout o st))
    by (intros; unfold alerts_kept; simpl; reflexivity);
  assert (Hc : forall (st : St) c, alerts_kept st (with_calls c st))
    by (intros; unfold alerts_kept; simpl; reflexivity);
  frame ltac:(intros; unfold alerts_kept; simpl;
              first [reflexivity | apply prefix_app_r; reflexivity]).




Lemma create_alert_keeps_alerts r lag : steps alerts_kept (create_alert r lag).
Proof. unfold create_alert. alerts_frame. Qed.








End AlertList.

(* ===================================================================== *)
(** * What one poll does *)
(* ===================================================================== *)

(** What identifies an alert in the statements below. *)
Definition alert_key (a : Alert) : string * Z :=
  (alert_region a, alert_lag_count a).

(** The alerts an entry calls for: one for a measured, unhealthy replica. *)
Definition alerts_due (entry : ReplicaStatus) : list (string * Z) :=
  match entry with
  | Measured m => if is_healthy m then [] else [(region m, lag_records m)]
  | Failed _ => []
  end.

(** An entry as lines 129-139 and 148-152 compute it from the primary's
    metrics. *)
Definition entry_consistent (primary_count primary_max_id : Z)
    (entry : ReplicaStatus) : Prop :=
  match entry with
  | Measured m =>
      lag_records m = primary_count - record_count m
      /\ lag_ids m = primary_max_id - max_id m
      /\ is_healthy m = (lag_records m <? 10)
  | Failed f => failed_is_healthy f = false
  end.

Section Poll.

Context {W Conn Cursor : Type} `{!Driver W Conn Cursor}.

Abbreviation St := (State W Conn).

Lemma create_alert_eq r lag (st : St) :
  exists a st',
    create_alert r lag st = (Ok tt, st')
    /\ alerts st' = alerts st ++ [a]
    /\ alert_region a = r
    /\ alert_lag_count a = lag
    /\ alert_severity a = (if lag <? 50 then WARNING else CRITICAL)
    /\ metrics_history st' = metrics_history st
    /\ connections st' = connections st
    /\ regions st' = regions st
    /\ calls st' = calls st.
Proof.
  unfold create_alert, bind, call_total, modify, logger.
  destruct (now_isoformat (world st)) as [now w] eqn:E; simpl.
  eexists _, _. split; [reflexivity |]. simpl. repeat split; reflexivity.
Qed.

(** One turn of the replica loop that returns has appended one entry
    for its region, and the alerts that entry calls for. *)
Lemma check_replica_returns pc pm r status (st : St) status' st' :
  check_replica pc pm r status st = (Ok status', st') ->
  exists entry new,
    status' = append_replica status entry
    /\ status_region entry = r
    /\ entry_consistent pc pm entry
    /\ alerts st' = alerts st ++ new
    /\ map alert_key new = alerts_due entry
    /\ metrics_history st' = metrics_history st
    /\ connections st' = connections st
    /\ regions st' = regions st
    /\ calls st' = calls st.
Proof.
  unfold check_replica, bind, connection, call, call_unit, try_except, ret.
  destruct (connections st !! r) as [c |]; [| discriminate].
  destruct (pg_cursor c (world st)) as [[cur | e] w1]; [| discriminate].
  simpl.
  destruct (pg_select_count cur replication_test w1) as [[n | e] w2]; simpl.
  - destruct (pg_select_max_id cur replication_test w2) as [[m | e] w3]; simpl.
    + destruct (pc - n <? 10) eqn:Hlag; simpl.
      * intros [= <- <-]. exists (Measured
          {| region := r; record_count := n; max_id := or_zero m;
             lag_records := pc - n; lag_ids := pm - or_zero m;
             is_healthy := true |}), []. simpl.
        rewrite Hlag, app_nil_r. repeat split; reflexivity.
      * match goal with
        | |- context [create_alert ?x ?l ?s] =>
            destruct (create_alert_eq x l s)
              as (a & st1 & -> & Ha & Hr & Hl & _ & Hh & Hc & Hg & Hk)
        end.
        simpl. intros [= <- <-]. exists (Measured
          {| region := r; record_count := n; max_id := or_zero m;
             lag_records := pc - n; lag_ids := pm - or_zero m;
             is_healthy := false |}), [a]. simpl.
        unfold alert_key. rewrite Hr, Hl, Ha, Hh, Hc, Hg, Hk, Hlag.
        repeat split; reflexivity.
    + unfold logger, modify. simpl. intros [= <- <-].
      eexists _, []. simpl. rewrite app_nil_r. repeat split; reflexivity.
  - unfold logger, modify. simpl. intros [= <- <-].
    eexists _, []. simpl. rewrite app_nil_r. repeat split; reflexivity.
Qed.

(** The whole replica loop: one entry per region, in order. *)
Lemma replica_loop_returns pc pm rs status (st : St) status' st' :
  for_each rs (check_replica pc pm) status st = (Ok status', st') ->
  exists entries new,
    replicas status' = replicas status ++ entries
    /\ timestamp status' = timestamp status
    /\ primary_status status' = primary_status status
    /\ map status_region entries = rs
    /\ Forall (entry_consistent pc pm) entries
    /\ alerts st' = alerts st ++ new
    /\ map alert_key new = flat_map alerts_due entries
    /\ metrics_history st' = metrics_history st
    /\ connections st' = connections st
    /\ regions st' = regions st
    /\ calls st' = calls st.
Proof.
  revert status st. induction rs as [| r rs IH]; intros status st; simpl.
  - intros [= <- <-]. exists [], []. rewrite !app_nil_r.
    repeat split; constructor.
  - intros E. apply bind_inv_ok in E as (status1 & st1 & E1 & E2).
    apply check_replica_returns in E1
      as (entry & new1 & -> & Hr & Hc & Ha & Hk & Hh & Hn & Hg & Hl).
    apply IH in E2
      as (entries & new2 & Hrs & Ht & Hp & Hm & Hf & Ha2 & Hk2 & Hh2 & Hn2
          & Hg2 & Hl2).
    exists (entry :: entries), (new1 ++ new2). simpl in *.
    rewrite Hrs, <- app_assoc, Ht, Hp, Hr, Hm, Ha2, Ha, <- app_assoc,
      map_app, Hk, Hk2, Hh2, Hh, Hn2, Hn, Hg2, Hg, Hl2, Hl.
    repeat split; try reflexivity. now constructor.
Qed.

(** A poll that returns: its snapshot, and what it did to the monitor. *)
Lemma check_replication_status_returns (st : St) snap st' :
  check_replication_status st = (Ok snap, st') ->
  exists new,
    map status_region (replicas snap) = ["us-east"; "eu-west"]
    /\ primary_region (primary_status snap) = "us-west"
    /\ Forall (entry_consistent (primary_record_count (primary_status snap))
                                (primary_max_id (primary_status snap)))
              (replicas snap)
    /\ alerts st' = alerts st ++ new
    /\ map alert_key new = flat_map alerts_due (replicas snap)
    /\ metrics_history st' = metrics_history st ++ [snap]
    /\ connections st' = connections st
    /\ regions st' = regions st
    /\ calls st' = calls st ++ [Call_check_replication_status].
Proof.
  unfold check_replication_status. intros E.
  apply bind_inv_ok in E as ([] & st0 & [= <-] & E).
  apply bind_inv_ok in E as (c & st1 & E1 & E).
  unfold connection in E1. simpl in E1.
  destruct (connections st !! "us-west") as [c' |]; [| discriminate].
  injection E1 as -> <-.
  apply bind_inv_ok in E as (cur & st2 & E2 & E).
  unfold call in E2. simpl in E2.
  destruct (pg_cursor c (world st)) as [o w1]. injection E2 as -> <-.
  apply bind_inv_ok in E as (pc & st3 & E3 & E).
  unfold call in E3. simpl in E3.
  destruct (pg_select_count cur replication_test w1) as [o w2].
  injection E3 as -> <-.
  apply bind_inv_ok in E as (m & st4 & E4 & E).
  unfold call in E4. simpl in E4.
  destruct (pg_select_max_id cur replication_test w2) as [o w3].
  injection E4 as -> <-.
  apply bind_inv_ok in E as ([] & st5 & [= <-] & E).
  apply bind_inv_ok in E as (now & st6 & E6 & E).
  unfold call_total in E6. simpl in E6.
  destruct (now_isoformat (pg_cursor_close cur w3)) as [t w4].
  injection E6 as <- <-.
  apply bind_inv_ok in E as (status & st7 & E7 & E).
  apply replica_loop_returns in E7
    as (entries & new & Hrs & Ht & Hp & Hm & Hf & Ha & Hk & Hh & Hn & Hg & Hl).
  apply bind_inv_ok in E as ([] & st8 & [= <-] & [= <- <-]).
  simpl in *. exists new. rewrite Hrs, Hp, Ha, Hh, Hn, Hg, Hl. simpl.
  repeat split; assumption.
Qed.

End Poll.

(** ** Alerts of a poll, region by region *)

Section AlertsPerRegion.

Implicit Types (entries : list ReplicaStatus) (new : list Alert).

Lemma alerts_due_region entry k :
  k ∈ alerts_due entry -> fst k = status_region entry.
Proof.
  destruct entry as [m | f]; simpl; [| now intros ?%elem_of_nil].
  destruct (is_healthy m); [now intros ?%elem_of_nil |].
  intros ->%list_elem_of_singleton. reflexivity.
Qed.

Lemma no_alert_for_other_region new keys r :
  map alert_key new = keys ->
  (forall k, k ∈ keys -> fst k <> r) ->
  filter (fun a => alert_region a = r) new = [].
Proof.
  intros <- Hk. induction new as [| a new IH]; [reflexivity |].
  rewrite filter_cons_False.
  - apply IH. intros k Hin. apply Hk. simpl. now right.
  - apply (Hk (alert_key a)). simpl. now left.
Qed.

Lemma no_alert_for_absent_region entries new r :
  r ∉ map status_region entries ->
  map alert_key new = flat_map alerts_due entries ->
  filter (fun a => alert_region a = r) new = [].
Proof.
  intros Hr Hk. eapply no_alert_for_other_region; [exact Hk |].
  intros k Hin Heq. apply Hr.
  apply list_elem_of_In, in_flat_map in Hin as (entry & Hin & Hdue).
  apply list_elem_of_In, alerts_due_region in Hdue.
  apply list_elem_of_In, in_map_iff. exists entry. split; congruence.
Qed.

(** With one entry per region, an unhealthy measured entry has exactly
    one alert, carrying its lag. *)
Lemma one_alert_per_lagging_entry entries new m :
  NoDup (map status_region entries) ->
  map alert_key new = flat_map alerts_due entries ->
  Measured m ∈ entries ->
  is_healthy m = false ->
  exists a,
    filter (fun x => alert_region x = region m) new = [a]
    /\ alert_lag_count a = lag_records m.
Proof.
  revert new. induction entries as [| e entries IH]; intros new Hnd Hk Hin Hh.
  - now apply elem_of_nil in Hin.
  - simpl in Hnd, Hk. apply NoDup_cons in Hnd as [Hfresh Hnd].
    apply map_eq_app in Hk as (new1 & new2 & -> & Hk1 & Hk2).
    rewrite filter_app. apply elem_of_cons in Hin as [<- | Hin].
    + simpl in Hk1, Hfresh. rewrite Hh in Hk1.
      destruct new1 as [| a [| ? ?]]; try discriminate.
      injection Hk1 as Hr Hl.
      rewrite (no_alert_for_absent_region entries new2 (region m) Hfresh Hk2).
      exists a. rewrite filter_cons_True by exact Hr. split; [reflexivity | exact Hl].
    + rewrite (no_alert_for_other_region new1 _ (region m) Hk1).
      * simpl. now apply IH.
      * intros k Hdue Heq. apply alerts_due_region in Hdue.
        apply Hfresh. rewrite <- Hdue, Heq.
        apply list_elem_of_In, in_map_iff. exists (Measured m).
        split; [reflexivity | now apply list_elem_of_In].
Qed.

End AlertsPerRegion.

(** ** Failing queries *)

Section Failures.

Context {W Conn Cursor : Type} `{!Driver W Conn Cursor}.

Abbreviation St := (State W Conn).

(** The [COUNT] query raises [e], or it returns and the [MAX(id)] query
    raises [e]; [w] is the world when the first of them is sent. *)
Definition query_raises (cur : Cursor) (w : W) (e : exn) : Prop :=
  (exists w', pg_select_count cur replication_test w = (Raise e, w'))
  \/ (exists n w1 w',
        pg_select_count cur replication_test w = (Ok n, w1)
        /\ pg_select_max_id cur replication_test w1 = (Raise e, w')).

(** [conn.cursor()] returns whenever it is called. *)
Definition cursor_available (c : Conn) : Prop :=
  forall w, exists cur w', pg_cursor c w = (Ok cur, w').

Lemma primary_query_raises (st : St) c cur w1 e :
  connections st !! "us-west" = Some c ->
  pg_cursor c (world st) = (Ok cur, w1) ->
  query_raises cur w1 e ->
  exists st',
    check_replication_status st = (Raise e, st')
    /\ metrics_history st' = metrics_history st
    /\ alerts st' = alerts st
    /\ connections st' = connections st.
Proof.
  intros Hc Hcur Hq.
  unfold check_replication_status, bind, enter, modify, connection, call.
  simpl. rewrite Hc. simpl. rewrite Hcur. simpl.
  destruct Hq as [(w' & E) | (n & w2 & w' & E1 & E2)].
  - rewrite E. simpl. eexists. repeat split; reflexivity.
  - rewrite E1. simpl. rewrite E2. simpl. eexists. repeat split; reflexivity.
Qed.


(** A turn of the replica loop returns as soon as the connection is
    there and gives a cursor, whatever the queries do. *)
Lemma check_replica_total pc pm r status (st : St) c :
  connections st !! r = Some c ->
  cursor_available c ->
  exists status' st', check_replica pc pm r status st = (Ok status', st').
Proof.
  intros Hc Hav. destruct (Hav (world st)) as (cur & w1 & Hcur).
  unfold check_replica, bind, connection, call, call_unit, try_except, ret,
    logger, modify.
  rewrite Hc, Hcur. simpl.
  destruct (pg_select_count cur replication_test w1) as [[n | e] w2]; simpl;
    [| eauto].
  destruct (pg_select_max_id cur replication_test w2) as [[m | e] w3]; simpl;
    [| eauto].
  destruct (pc - n <? 10); simpl; [eauto |].
  match goal with
  | |- context [create_alert ?x ?l ?s] =>
      destruct (create_alert_eq x l s) as (a & st1 & -> & _)
  end.
  simpl. eauto.
Qed.

Lemma replica_loop_total pc pm rs status (st : St) :
  (forall r, r ∈ rs ->
     exists c, connections st !! r = Some c /\ cursor_available c) ->
  exists status' st',
    for_each rs (check_replica pc pm) status st = (Ok status', st').
Proof.
  revert status st. induction rs as [| r rs IH]; intros status st Hrs; simpl.
  - unfold ret. eauto.
  - destruct (Hrs r) as (c & Hc & Hav); [now left |].
    destruct (check_replica_total pc pm r status st c Hc Hav)
      as (status1 & st1 & E1).
    rewrite (bind_ok _ _ _ _ _ E1).
    apply check_replica_returns in E1 as (_ & _ & _ & _ & _ & _ & _ & _ & Hn & _).
    apply IH. intros r' Hin. rewrite Hn. apply Hrs. now right.
Qed.

(** The poll returns when the primary answers and the replica
    connections give cursors, whatever the replica queries do. *)
Lemma check_replication_status_total (st : St) c cur w1 pc w2 m w3 :
  connections st !! "us-west" = Some c ->
  pg_cursor c (world st) = (Ok cur, w1) ->
  pg_select_count cur replication_test w1 = (Ok pc, w2) ->
  pg_select_max_id cur replication_test w2 = (Ok m, w3) ->
  (forall r, r ∈ ["us-east"; "eu-west"] ->
     exists c, connections st !! r = Some c /\ cursor_available c) ->
  exists snap st',
    check_replication_status st = (Ok snap, st')
    /\ primary_record_count (primary_status snap) = pc
    /\ primary_max_id (primary_status snap) = or_zero m.
Proof.
  intros Hc Hcur Hn Hm Hrs.
  unfold check_replication_status.
  erewrite bind_ok by (unfold enter, modify; reflexivity).
  erewrite bind_ok by (unfold connection; simpl; rewrite Hc; reflexivity).
  erewrite bind_ok by (unfold call; simpl; rewrite Hcur; reflexivity).
  erewrite bind_ok by (unfold call; simpl; rewrite Hn; reflexivity).
  erewrite bind_ok by (unfold call; simpl; rewrite Hm; reflexivity).
  erewrite bind_ok by (unfold call_unit; reflexivity).
  destruct (now_isoformat (pg_cursor_close cur w3)) as [t w4] eqn:Hnow.
  erewrite bind_ok by (unfold call_total; simpl; rewrite Hnow; reflexivity).
  match goal with
  | |- context [for_each ?rs ?body ?status] =>
      destruct (replica_loop_total pc (or_zero m) rs status
                  (with_world w4
                     (with_world (pg_cursor_close cur w3)
                        (with_world w3 (with_world w2 (with_world w1
                           (with_calls
                              (calls st ++ [Call_check_replication_status])
                              st)))))))
        as (status' & st' & E); [exact Hrs |];
      pose proof E as E'; apply replica_loop_returns in E'
        as (_ & _ & _ & _ & Hp & _)
  end.
  rewrite (bind_ok _ _ _ _ _ E). unfold bind, modify, ret. simpl.
  eexists _, _. split; [reflexivity |]. rewrite Hp. simpl. auto.
Qed.

(** The primary's entry of a returned snapshot, from what its two
    queries answered. *)
Lemma check_replication_status_primary (st : St) c cur w1 pc w2 m w3 snap st' :
  connections st !! "us-west" = Some c ->
  pg_cursor c (world st) = (Ok cur, w1) ->
  pg_select_count cur replication_test w1 = (Ok pc, w2) ->
  pg_select_max_id cur replication_test w2 = (Ok m, w3) ->
  check_replication_status st = (Ok snap, st') ->
  primary_record_count (primary_status snap) = pc
  /\ primary_max_id (primary_status snap) = or_zero m.
Proof.
  intros Hc Hcur Hn Hm.
  unfold check_replication_status.
  erewrite bind_ok by (unfold enter, modify; reflexivity).
  erewrite bind_ok by (unfold connection; simpl; rewrite Hc; reflexivity).
  erewrite bind_ok by (unfold call; simpl; rewrite Hcur; reflexivity).
  erewrite bind_ok by (unfold call; simpl; rewrite Hn; reflexivity).
  erewrite bind_ok by (unfold call; simpl; rewrite Hm; reflexivity).
  erewrite bind_ok by (unfold call_unit; reflexivity).
  destruct (now_isoformat (pg_cursor_close cur w3)) as [t w4] eqn:Hnow.
  erewrite bind_ok by (unfold call_total; simpl; rewrite Hnow; reflexivity).
  intros E. apply bind_inv_ok in E as (status & st1 & E1 & E2).
  apply replica_loop_returns in E1 as (_ & _ & _ & _ & Hp & _).
  apply bind_inv_ok in E2 as ([] & st2 & _ & [= <- <-]).
  rewrite Hp. simpl. auto.
Qed.

(** A replica whose two queries answer gets a measured entry. *)
Lemma replica_queries_answer pc pm r status (st : St) c cur w1 n w2 m w3 :
  connections st !! r = Some c ->
  pg_cursor c (world st) = (Ok cur, w1) ->
  pg_select_count cur replication_test w1 = (Ok n, w2) ->
  pg_select_max_id cur replication_test w2 = (Ok m, w3) ->
  exists st',
    check_replica pc pm r status st
    = (Ok (append_replica status
             (Measured {| region := r; record_count := n;
                          max_id := or_zero m;
                          lag_records := pc - n;
                          lag_ids := pm - or_zero m;
                          is_healthy := pc - n <? 10 |})), st').
Proof.
  intros Hc Hcur Hn Hm.
  unfold check_replica, bind, connection, call, call_unit, try_except, ret.
  rewrite Hc, Hcur. simpl. rewrite Hn. simpl. rewrite Hm. simpl.
  destruct (pc - n <? 10); simpl; [eauto |].
  match goal with
  | |- context [create_alert ?x ?l ?s] =>
      destruct (create_alert_eq x l s) as (a & st1 & -> & _)
  end.
  simpl. eauto.
Qed.

End Failures.

(** ** Connecting *)

Section Connecting.

Context {W Conn Cursor : Type} `{!Driver W Conn Cursor}.

Abbreviation St := (State W Conn).

(** [len(self.connections) == len(self.regions)] says that every
    configured region has a connection, as long as the connections are
    kept under configured region names. *)
Lemma all_connected_iff (m : gmap string Conn) (keys : list string) :
  NoDup keys ->
  dom m ⊆ list_to_set keys ->
  Nat.eqb (size m) (length keys) = true
  <-> forall r, r ∈ keys -> is_Some (m !! r).
Proof.
  intros Hnd Hsub.
  rewrite Nat.eqb_eq, <- size_dom.
  rewrite <- (size_list_to_set (C := gset string) keys Hnd).
  split.
  - intros Hsize r Hr. apply elem_of_dom.
    assert (Heq : dom m = list_to_set keys).
    { apply set_subseteq_size_eq; [exact Hsub | lia]. }
    rewrite Heq. now apply elem_of_list_to_set.
  - intros Hall. f_equal. apply leibniz_equiv. apply (anti_symm _); [exact Hsub |].
    intros r Hr. apply elem_of_list_to_set in Hr. now apply elem_of_dom, Hall.
Qed.

Lemma connect_region_returns entry (st : St) :
  exists st',
    connect_region entry st = (Ok tt, st')
    /\ regions st' = regions st
    /\ metrics_history st' = metrics_history st
    /\ alerts st' = alerts st
    /\ calls st' = calls st
    /\ dom (connections st') ⊆ dom (connections st) ∪ {[fst entry]}.
Proof.
  destruct entry as [r config].
  unfold connect_region, try_except, bind, call, modify, logger. simpl.
  destruct (pg_connect _ _ _ _ _ (world st)) as [[conn | e] w1]; simpl.
  - destruct (pg_set_autocommit conn true w1) as [[[] | e] w2]; simpl;
      eexists; (split; [reflexivity |]); simpl; repeat split;
      try reflexivity; [rewrite dom_insert |]; set_solver.
  - eexists. split; [reflexivity |]. simpl. repeat split; set_solver.
Qed.

Lemma connect_loop_returns items (st : St) :
  exists st',
    for_ items connect_region st = (Ok tt, st')
    /\ regions st' = regions st
    /\ metrics_history st' = metrics_history st
    /\ alerts st' = alerts st
    /\ calls st' = calls st
    /\ dom (connections st')
       ⊆ dom (connections st) ∪ list_to_set (map fst items).
Proof.
  unfold for_. revert st. induction items as [| entry items IH]; intros st.
  - exists st. simpl. unfold ret. repeat split; set_solver.
  - destruct (connect_region_returns entry st)
      as (st1 & E1 & Hr1 & Hh1 & Ha1 & Hc1 & Hd1).
    destruct (IH st1) as (st2 & E2 & Hr2 & Hh2 & Ha2 & Hc2 & Hd2).
    exists st2. simpl. rewrite (bind_ok _ _ _ _ _ E1).
    split; [exact E2 |]. rewrite Hr2, Hh2, Ha2, Hc2.
    repeat split; try assumption. set_solver.
Qed.

(** [connect_all] always returns; its answer is the comparison of the
    two lengths in the state it leaves. *)
Lemma connect_all_returns (st : St) :
  exists st',
    connect_all st
    = (Ok (Nat.eqb (size (connections st')) (length (regions st))), st')
    /\ regions st' = regions st
    /\ metrics_history st' = metrics_history st
    /\ alerts st' = alerts st
    /\ calls st' = calls st ++ [Call_connect_all]
    /\ dom (connections st')
       ⊆ dom (connections st) ∪ list_to_set (map fst (regions st)).
Proof.
  unfold connect_all.
  erewrite bind_ok by (unfold enter, modify; reflexivity).
  erewrite bind_ok by (unfold logger, modify; reflexivity).
  erewrite bind_ok by (unfold gets; reflexivity).
  match goal with
  | |- context [for_ ?items connect_region] =>
      destruct (connect_loop_returns items
                  (with_log
                     (log (with_calls (calls st ++ [Call_connect_all]) st)
                      ++ [{| level := INFO;
                             text := "Connecting to all regions..." |}])
                     (with_calls (calls st ++ [Call_connect_all]) st)))
        as (st' & E & Hr & Hh & Ha & Hc & Hd)
  end.
  exists st'. rewrite (bind_ok _ _ _ _ _ E). unfold gets.
  simpl in *. rewrite Hr. repeat split; assumption.
Qed.

End Connecting.

(** ** The schedule of a run *)

(** The methods one pass of the [while] loop enters, and its sleep. *)
Definition tick_schedule (iteration : Z) : list Call :=
  if iteration mod 2 =? 0
  then [Call_simulate_writes 5; Call_check_replication_status;
        Call_print_status; Call_sleep 5]
  else [Call_check_replication_status; Call_sleep 5].

(** [ticks] passes in a row, the first with counter [iteration]. *)
Fixpoint schedule (iteration : Z) (ticks : nat) : list Call :=
  match ticks with
  | O => []
  | S k => tick_schedule iteration ++ schedule (iteration + 1) k
  end.







Section Schedule.

Context {W Conn Cursor : Type} `{!Driver W Conn Cursor}.

Abbreviation St := (State W Conn).

(** Nothing is entered and neither list of the monitor is touched. *)
Definition quiet (st st' : St) : Prop :=
  calls st' = calls st
  /\ metrics_history st' = metrics_history st
  /\ alerts st' = alerts st.

Lemma quiet_refl st : quiet st st.
Proof. unfold quiet. auto. Qed.

Lemma quiet_trans a b c : quiet a b -> quiet b c -> quiet a c.
Proof. unfold quiet. intros (-> & -> & ->) (-> & -> & ->). auto. Qed.

Ltac quiet_frame :=
  pose proof quiet_refl as Hrefl;
  pose proof quiet_trans as Htrans;
  assert (Hw : forall (st : St) w, quiet st (with_world w st))
    by (intros; unfold quiet; simpl; auto);
  assert (Hl : forall (st : St) l, quiet st (with_log l st))
    by (intros; unfold quiet; simpl; auto);
  assert (Ho : forall (st : St) o, quiet st (with_stdout o st))
    by (intros; unfold quiet; simpl; auto);
  frame ltac:(fail).

Lemma simulate_writes_calls count (st : St) :
  let st' := snd (simulate_writes count st) in
  calls st' = calls st ++ [Call_simulate_writes count]
  /\ metrics_history st' = metrics_history st
  /\ alerts st' = alerts st.
Proof.
  unfold simulate_writes.
  erewrite bind_ok by (unfold enter, modify; reflexivity).
  match goal with
  | |- context [bind ?m ?k ?s] =>
      assert (Hq : steps quiet (bind m k)) by quiet_frame;
      destruct (Hq s) as (-> & -> & ->)
  end.
  simpl. auto.
Qed.

(** Only the log and the output may differ. *)
Definition silent (st st' : St) : Prop :=
  world st' = world st
  /\ calls st' = calls st
  /\ metrics_history st' = metrics_history st
  /\ alerts st' = alerts st
  /\ connections st' = connections st
  /\ regions st' = regions st.

Lemma silent_refl st : silent st st.
Proof. unfold silent. auto 10. Qed.

Lemma silent_trans a b c : silent a b -> silent b c -> silent a c.
Proof.
  unfold silent.
  intros (-> & -> & -> & -> & -> & ->) (-> & -> & -> & -> & -> & ->). auto 10.
Qed.

Ltac silent_returns :=
  pose proof silent_refl as Hrefl;
  pose proof silent_trans as Htrans;
  assert (Hl : forall (st : St) l, silent st (with_log l st))
    by (intros; unfold silent; simpl; auto 10);
  assert (Ho : forall (st : St) o, silent st (with_stdout o st))
    by (intros; unfold silent; simpl; auto 10);
  repeat returns_step.

Lemma print_status_calls status (st : St) :
  exists st',
    print_status status st = (Ok tt, st')
    /\ calls st' = calls st ++ [Call_print_status]
    /\ metrics_history st' = metrics_history st
    /\ alerts st' = alerts st
    /\ connections st' = connections st
    /\ world st' = world st.
Proof.
  unfold print_status.
  erewrite bind_ok by (unfold enter, modify; reflexivity).
  match goal with
  | |- context [bind ?m ?k ?s] =>
      assert (Hq : returns silent (bind m k))
        by (unfold print_replica; silent_returns);
      destruct (Hq s) as ([] & st' & -> & Hw' & Hc & Hh & Ha & Hn & _)
  end.
  exists st'. rewrite Hw', Hc, Hh, Ha, Hn. simpl. auto 10.
Qed.

Lemma print_summary_returns duration (st : St) :
  exists st', print_summary duration st = (Ok tt, st') /\ silent st st'.
Proof.
  assert (Hq : returns silent (print_summary duration))
    by (unfold print_summary; silent_returns).
  destruct (Hq st) as ([] & st' & E & Hs). now exists st'.
Qed.

Lemma sleep_calls seconds (st : St) :
  sleep seconds st
  = (Ok tt, with_world (time_sleep seconds (world st))
              (with_calls (calls st ++ [Call_sleep seconds]) st)).
Proof. reflexivity. Qed.

(** One pass that returns has entered the methods of its schedule, in
    that order, and recorded one snapshot. *)
Lemma monitoring_tick_returns iteration (st : St) st' :
  monitoring_tick iteration st = (Ok tt, st') ->
  calls st' = calls st ++ tick_schedule iteration
  /\ length (metrics_history st') = S (length (metrics_history st)).
Proof.
  unfold monitoring_tick, tick_schedule.
  destruct (iteration mod 2 =? 0); intros E.
  - apply bind_inv_ok in E as ([] & st1 & E1 & E).
    pose proof (simulate_writes_calls 5 st) as Hw. rewrite E1 in Hw.
    simpl in Hw. destruct Hw as (Hc1 & Hh1 & _).
    apply bind_inv_ok in E as (status & st2 & E2 & E).
    apply check_replication_status_returns in E2
      as (new & _ & _ & _ & _ & _ & Hh2 & _ & _ & Hc2).
    apply bind_inv_ok in E as ([] & st3 & E3 & E).
    destruct (print_status_calls status st2) as (st3' & E3' & Hc3 & Hh3 & _).
    rewrite E3 in E3'. injection E3' as <-.
    rewrite sleep_calls in E. injection E as <-. simpl.
    rewrite Hc3, Hc2, Hc1, Hh3, Hh2, Hh1, <- !app_assoc, length_app. simpl.
    split; [reflexivity | lia].
  - apply bind_inv_ok in E as ([] & st1 & [= <-] & E).
    apply bind_inv_ok in E as (status & st2 & E2 & E).
    apply check_replication_status_returns in E2
      as (new & _ & _ & _ & _ & _ & Hh2 & _ & _ & Hc2).
    apply bind_inv_ok in E as ([] & st3 & [= <-] & E).
    rewrite sleep_calls in E. injection E as <-. simpl.
    rewrite Hc2, Hh2, <- !app_assoc, length_app. simpl.
    split; [reflexivity | lia].
Qed.

(** A loop that leaves normally after [ticks] passes has followed the
    schedule of these passes; it leaves on a clock reading [t] with
    [duration] seconds or more elapsed. *)
Lemma monitoring_loop_returns fuel duration start iteration (st : St) n st' :
  monitoring_loop fuel duration start iteration st = Some (Ok n, st') ->
  exists (ticks : nat) (last : St) (t : Z),
    n = iteration + Z.of_nat ticks
    /\ (ticks <= fuel)%nat
    /\ calls st' = calls st ++ schedule (iteration + 1) ticks
    /\ length (metrics_history st')
       = (length (metrics_history st) + ticks)%nat
    /\ time_time (world last) = (t, world st')
    /\ duration * 1000 <= t - start.
Proof.
  revert iteration st.
  induction fuel as [| fuel IH]; intros iteration st; simpl;
    unfold call_total; destruct (time_time (world st)) as [t w] eqn:Ht;
    destruct (t - start <? duration * 1000) eqn:Hlt; try discriminate;
    try (intros [= <- <-]; exists 0%nat, st, t; simpl;
         rewrite app_nil_r, Z.add_0_r, Nat.add_0_r;
         apply Z.ltb_ge in Hlt; repeat split; try assumption; lia).
  destruct (monitoring_tick (iteration + 1) (with_world w st))
    as [[[] | e] st2] eqn:Etick; [| discriminate].
  intros E. apply IH in E
    as (ticks & last & t' & -> & Hfuel & Hc & Hh & Hlast & Hexit).
  apply monitoring_tick_returns in Etick as (Hc1 & Hh1). simpl in Hc1, Hh1.
  exists (S ticks), last, t'. simpl. rewrite Hc, Hc1, Hh, Hh1, <- app_assoc.
  repeat split; try assumption; lia.
Qed.

Lemma setup_primary_calls (st : St) :
  let st' := snd (setup_primary st) in
  calls st' = calls st ++ [Call_setup_primary]
  /\ metrics_history st' = metrics_history st
  /\ alerts st' = alerts st.
Proof.
  unfold setup_primary.
  erewrite bind_ok by (unfold enter, modify; reflexivity).
  match goal with
  | |- context [bind ?m ?k ?s] =>
      assert (Hq : steps quiet (bind m k)) by quiet_frame;
      destruct (Hq s) as (-> & -> & ->)
  end.
  simpl. auto.
Qed.

(** The prologue that goes on to the loop has connected, seeded and
    slept three seconds. *)
Lemma run_prologue_returns (st : St) start st1 :
  run_prologue st = (Ok (Some start), st1) ->
  calls st1 = calls st ++ [Call_connect_all; Call_setup_primary; Call_sleep 3]
  /\ metrics_history st1 = metrics_history st.
Proof.
  unfold run_prologue. erewrite bind_ok by reflexivity.
  destruct (connect_all_returns (snd (print_banner st)))
    as (st0 & E0 & _ & Hh0 & _ & Hc0 & _).
  rewrite (bind_ok _ _ _ _ _ E0).
  destruct (Nat.eqb _ _); simpl; [| discriminate].
  intros E. apply bind_inv_ok in E as ([] & st2 & E2 & E).
  pose proof (setup_primary_calls st0) as Hs. rewrite E2 in Hs. simpl in Hs.
  destruct Hs as (Hc2 & Hh2 & _).
  apply bind_inv_ok in E as ([] & st3 & [= <-] & E).
  apply bind_inv_ok in E as ([] & st4 & E4 & E).
  rewrite sleep_calls in E4. injection E4 as <-.
  apply bind_inv_ok in E as (t & st5 & E5 & [= _ <-]).
  unfold call_total in E5. simpl in E5.
  destruct (time_time _) as [t' w']. injection E5 as _ <-. simpl.
  rewrite Hc2, Hh2, Hc0, Hh0. simpl. rewrite <- !app_assoc. simpl. auto.
Qed.


End Schedule.

(** ** Seeding the primary of the stand-in *)

Module Seeding.
Import PgSim.

(** The primary after the script of [setup_primary], run at time [now]. *)
Definition seeded (now : Z) (srv : Server) : Server :=
  {| online := online srv;
     database :=
       {| test_table := Some {| rows := []; next_serial := 1 |};
          txn_table :=
            Some {| rows := series_rows 1000 1 (random_amounts srv)
                              (drawn srv) now;
                    next_serial := 1001 |} |};
     random_amounts := random_amounts srv;
     drawn := (drawn srv + 1000)%nat |}.

Lemma exec_setup_script now srv :
  exec_script now setup_script srv = Ok (seeded now srv).
Proof.
  unfold setup_script, exec_script, exec_statement.
  destruct srv as [on [tt tx] ra dr]. reflexivity.
Qed.





(** [setup_primary] on a monitor whose primary connection reaches an
    online server. *)
Lemma setup_primary_seeds (st : State World Z) p srv :
  connections st !! "us-west" = Some p ->
  servers (world st) !! p = Some srv ->
  online srv = true ->
  exists st',
    setup_primary st = (Ok tt, st')
    /\ connections st' = connections st
    /\ servers (world st') !! p = Some (seeded (clock (world st)) srv)
    /\ clock (world st') = clock (world st).
Proof.
  intros Hc Hs Ho.
  unfold setup_primary, bind, enter, logger, modify, connection, call,
    call_unit.
  simpl. rewrite Hc. simpl. unfold execute, reach. rewrite Hs, Ho.
  rewrite exec_setup_script. simpl.
  eexists. split; [reflexivity |]. simpl.
  rewrite lookup_insert_eq. auto.
Qed.

End Seeding.

(** ** Runs against the stand-in *)

Module SimRun.
Import PgSim.

Abbreviation St := (State World Z).

(** The primary answers and has its [replication_test] table. *)
Definition primary_ready (w : World) : Prop :=
  exists srv tb,
    servers w !! 5441 = Some srv
    /\ online srv = true
    /\ test_table (database srv) = Some tb.

(** The monitor is connected to the three regions and the primary is
    ready. *)
Definition ready (st : St) : Prop :=
  connections st !! "us-west" = Some 5441
  /\ is_Some (connections st !! "us-east")
  /\ is_Some (connections st !! "eu-west")
  /\ primary_ready (world st).

(** The world and the connections are as before. *)
Definition same_world (st st' : St) : Prop :=
  world st' = world st /\ connections st' = connections st.

Lemma same_world_refl st : same_world st st.
Proof. unfold same_world. auto. Qed.

Lemma same_world_trans a b c :
  same_world a b -> same_world b c -> same_world a c.
Proof. unfold same_world. intros (-> & ->) (-> & ->). auto. Qed.

(** Queries read: in the stand-in a poll leaves the world alone. *)
Lemma poll_reads_only : steps same_world check_replication_status.
Proof.
  pose proof same_world_refl as Hrefl.
  pose proof same_world_trans as Htrans.
  assert (Hl : forall (st : St) l, same_world st (with_log l st))
    by (intros; unfold same_world; simpl; auto).
  assert (Hc : forall (st : St) c, same_world st (with_calls c st))
    by (intros; unfold same_world; simpl; auto).
  assert (Hcur : forall c, steps same_world (call (pg_cursor c))).
  { intros c st. unfold same_world, call. simpl. destruct st; auto. }
  assert (Hcnt : forall cur t, steps same_world (call (pg_select_count cur t))).
  { intros cur t st. unfold same_world, call. simpl. unfold select_count.
    destruct (reach cur (world st)) as [srv | e]; [| destruct st; simpl; auto].
    destruct (count_rows t (database srv)); destruct st; simpl; auto. }
  assert (Hmax : forall cur t, steps same_world (call (pg_select_max_id cur t))).
  { intros cur t st. unfold same_world, call. simpl. unfold select_max_id.
    destruct (reach cur (world st)) as [srv | e]; [| destruct st; simpl; auto].
    destruct (max_key t (database srv)); destruct st; simpl; auto. }
  assert (Hclose : forall cur, steps same_world (call_unit (pg_cursor_close cur))).
  { intros cur st. unfold same_world, call_unit. simpl. destruct st; auto. }
  assert (Hnow : steps same_world (call_total now_isoformat)).
  { intros st. unfold same_world, call_total. simpl. destruct st; auto. }
  unfold check_replication_status, check_replica, create_alert.
  frame ltac:(intros; unfold same_world; simpl; auto).
Qed.

Lemma cursor_always_available (c : Z) : cursor_available c.
Proof. intros w. exists c, w. reflexivity. Qed.

Lemma poll_when_ready (st : St) :
  ready st ->
  exists snap st',
    check_replication_status st = (Ok snap, st') /\ ready st'.
Proof.
  intros (Hw & [ce Hce] & [cu Hcu] & srv & tb & Hs & Ho & Ht).
  destruct (check_replication_status_total st 5441 5441 (world st)
              (Z.of_nat (length (rows tb))) (world st)
              (max_of (map id (rows tb))) (world st))
    as (snap & st' & E & _).
  - exact Hw.
  - reflexivity.
  - simpl. unfold select_count, reach. rewrite Hs, Ho. simpl. now rewrite Ht.
  - simpl. unfold select_max_id, reach. rewrite Hs, Ho. simpl. now rewrite Ht.
  - intros r Hin. apply elem_of_cons in Hin as [-> | Hin].
    + exists ce. split; [exact Hce | apply cursor_always_available].
    + apply list_elem_of_singleton in Hin as ->.
      exists cu. split; [exact Hcu | apply cursor_always_available].
  - exists snap, st'. split; [exact E |].
    pose proof (poll_reads_only st) as [Hsw Hsc]. rewrite E in Hsw, Hsc.
    simpl in Hsw, Hsc. unfold ready. rewrite Hsw, Hsc.
    repeat split; eauto. exists srv, tb. auto.
Qed.





(** [MAX(id)] over an empty [replication_test] is [NULL]. *)
Lemma max_id_of_empty_table cur (w : World) srv tb :
  reach cur w = Ok srv ->
  test_table (database srv) = Some tb ->
  rows tb = [] ->
  select_max_id cur replication_test w = (Ok None, w)
  /\ select_count cur replication_test w = (Ok 0, w).
Proof.
  intros Hr Ht Hrows. unfold select_max_id, select_count. rewrite Hr. simpl.
  rewrite Ht. simpl. now rewrite Hrows.
Qed.

(** A server listens on port [p] and answers. *)
Definition online_at (w : World) (p : Z) : Prop :=
  exists srv, servers w !! p = Some srv /\ online srv = true.

Lemma connect_region_online r config (st : St) :
  online_at (world st) (port config) ->
  exists st',
    connect_region (r, config) st = (Ok tt, st')
    /\ connections st' = <[r := port config]> (connections st)
    /\ world st' = world st
    /\ regions st' = regions st.
Proof.
  intros (srv & Hs & Ho).
  unfold connect_region, try_except, bind, call, modify, logger. simpl.
  unfold connect, reach. rewrite Hs, Ho. simpl.
  eexists. split; [reflexivity |]. simpl. auto.
Qed.

Lemma connect_loop_online (st : St) :
  online_at (world st) 5441 ->
  online_at (world st) 5442 ->
  online_at (world st) 5443 ->
  exists st',
    for_ default_regions connect_region st = (Ok tt, st')
    /\ connections st'
       = <["eu-west" := 5443]>
           (<["us-east" := 5442]> (<["us-west" := 5441]> (connections st)))
    /\ world st' = world st
    /\ regions st' = regions st.
Proof.
  intros Hw He Hu. unfold for_, default_regions. cbn [for_each]. cbv beta.
  destruct (connect_region_online "us-west"
              {| host := "localhost"; port := 5441; role := primary |} st)
    as (st1 & E1 & Hc1 & Hw1 & Hr1); [exact Hw |].
  rewrite (bind_ok _ _ _ _ _ E1).
  destruct (connect_region_online "us-east"
              {| host := "localhost"; port := 5442; role := replica |} st1)
    as (st2 & E2 & Hc2 & Hw2 & Hr2); [rewrite Hw1; exact He |].
  rewrite (bind_ok _ _ _ _ _ E2).
  destruct (connect_region_online "eu-west"
              {| host := "localhost"; port := 5443; role := replica |} st2)
    as (st3 & E3 & Hc3 & Hw3 & Hr3); [rewrite Hw2, Hw1; exact Hu |].
  rewrite (bind_ok _ _ _ _ _ E3).
  exists st3. rewrite Hc3, Hc2, Hc1, Hw3, Hw2, Hw1, Hr3, Hr2, Hr1.
  simpl. auto.
Qed.

Lemma connect_all_online (st : St) :
  regions st = default_regions ->
  connections st = ∅ ->
  online_at (world st) 5441 ->
  online_at (world st) 5442 ->
  online_at (world st) 5443 ->
  exists st',
    connect_all st = (Ok true, st')
    /\ connections st'
       = <["eu-west" := 5443]> (<["us-east" := 5442]> (<["us-west" := 5441]> ∅))
    /\ world st' = world st.
Proof.
  intros Hr Hc Hw He Hu. unfold connect_all.
  erewrite bind_ok by (unfold enter, modify; reflexivity).
  erewrite bind_ok by (unfold logger, modify; reflexivity).
  erewrite bind_ok by (unfold gets; simpl; rewrite Hr; reflexivity).
  match goal with
  | |- context [bind (for_ default_regions connect_region) _ ?s] =>
      destruct (connect_loop_online s) as (st' & E & Hc' & Hw' & Hr');
        [exact Hw | exact He | exact Hu |]
  end.
  rewrite (bind_ok _ _ _ _ _ E). unfold gets. exists st'.
  rewrite Hr', Hc', Hw'. simpl. rewrite Hr, Hc. auto.
Qed.



End SimRun.

(** ** Worlds used to run the definitions *)

Module Demo.
Import PgSim.

(** The primary holds 12 rows, us-east 2 rows, eu-west has no table. *)
Definition lagging : State World Z :=
  connected (world_of (server_with 12) (server_with 2) empty_server 1500).

(** The primary and us-east hold 7 rows, eu-west 3 rows. *)
Definition in_sync : State World Z :=
  connected (world_of (server_with 7) (server_with 7) (server_with 3) 1500).

(** All three tables exist and are empty. *)
Definition all_empty : State World Z :=
  connected (world_of (server_with 0) (server_with 0) (server_with 0) 1500).

Definition us_east_lagging : ReplicaMetrics :=
  {| region := "us-east"; record_count := 2; max_id := 2;
     lag_records := 10; lag_ids := 10; is_healthy := false |}.

Definition us_east_in_sync : ReplicaMetrics :=
  {| region := "us-east"; record_count := 7; max_id := 7;
     lag_records := 0; lag_ids := 0; is_healthy := true |}.

Definition snapshot_of (st : State World Z) : StatusSnapshot :=
  match fst (check_replication_status st) with
  | Ok snap => snap
  | Raise _ => {| timestamp := "";
                  primary_status := {| primary_region := "";
                                       primary_record_count := 0;
                                       primary_max_id := 0 |};
                  replicas := [] |}
  end.

(** A fresh monitor next to three servers without tables. *)
Definition fresh : State World Z :=
  init (world_of empty_server empty_server empty_server 0).

(** A fresh monitor whose us-east server does not answer. *)
Definition fresh_east_down : State World Z :=
  init (world_of empty_server (offline empty_server) empty_server 0).


(** The primary has no [replication_test] table. *)
Definition primary_without_table : State World Z :=
  connected (world_of empty_server (server_with 2) (server_with 2) 1500).


(** The two scenarios of the specification: 1000 rows on the primary
    against 990 and 940 rows on the replicas. *)
Definition scenario : State World Z :=
  connected (world_of (server_with 1000) (server_with 990) (server_with 940)
               1500).

Example scenario_entries :
  map (fun entry => (status_region entry, status_is_healthy entry))
      (replicas (snapshot_of scenario))
  = [("us-east", false); ("eu-west", false)].
Proof. vm_compute. reflexivity. Qed.

Example scenario_alerts :
  map (fun a => (alert_region a, alert_severity a, alert_lag_count a))
      (alerts (snd (check_replication_status scenario)))
  = [("us-east", WARNING, 10); ("eu-west", CRITICAL, 60)].
Proof. vm_compute. reflexivity. Qed.

End Demo.

(* ===================================================================== *)
(** * Properties of the specification *)
(* ===================================================================== *)

(** C1. In every poll, a replica whose queries succeeded and whose
    [lag_records] is at least 10 is reported with [is_healthy = false],
    and among the alerts the poll appended exactly one is for that
    replica; its [lag_count] is the replica's [lag_records]. *)
Theorem lagging_replica_raises_one_alert
    {W Conn Cursor : Type} `{!Driver W Conn Cursor}
    (st st' : State W Conn) (snap : StatusSnapshot) (m : ReplicaMetrics) :
  check_replication_status st = (Ok snap, st') ->
  Measured m ∈ replicas snap ->
  10 <= lag_records m ->
  is_healthy m = false
  /\ exists new a,
       alerts st' = alerts st ++ new
       /\ filter (fun x => alert_region x = region m) new = [a]
       /\ alert_lag_count a = lag_records m.
Proof.
  intros E Hin Hlag.
  apply check_replication_status_returns in E
    as (new & Hrs & _ & Hf & Ha & Hk & _).
  assert (Hh : is_healthy m = false).
  { rewrite Forall_forall in Hf. destruct (Hf _ Hin) as (_ & _ & ->).
    apply Z.ltb_ge. exact Hlag. }
  split; [exact Hh |].
  destruct (one_alert_per_lagging_entry (replicas snap) new m) as (a & Hfa & Hl);
    try assumption.
  - rewrite Hrs. apply NoDup_cons_2; [| apply NoDup_singleton].
    intros ?%list_elem_of_singleton. discriminate.
  - exists new, a. auto.
Qed.

Lemma lagging_replica_raises_one_alert_witness :
  is_healthy Demo.us_east_lagging = false
  /\ exists new a,
       alerts (snd (check_replication_status Demo.lagging))
       = alerts Demo.lagging ++ new
       /\ filter (fun x => alert_region x = "us-east") new = [a]
       /\ alert_lag_count a = 10.
Proof.
  apply (lagging_replica_raises_one_alert Demo.lagging
           (snd (check_replication_status Demo.lagging))
           (Demo.snapshot_of Demo.lagging) Demo.us_east_lagging).
  - vm_compute. reflexivity.
  - vm_compute. left.
  - vm_compute. discriminate.
Defined.

(** C7. In every poll, a replica whose [record_count] and [max_id] equal
    the primary's is reported with [lag_records = 0], [lag_ids = 0] and
    [is_healthy = true]. *)
Theorem replica_in_sync_is_healthy
    {W Conn Cursor : Type} `{!Driver W Conn Cursor}
    (st st' : State W Conn) (snap : StatusSnapshot) (m : ReplicaMetrics) :
  check_replication_status st = (Ok snap, st') ->
  Measured m ∈ replicas snap ->
  record_count m = primary_record_count (primary_status snap) ->
  max_id m = primary_max_id (primary_status snap) ->
  lag_records m = 0 /\ lag_ids m = 0 /\ is_healthy m = true.
Proof.
  intros E Hin Hc Hm.
  apply check_replication_status_returns in E as (new & _ & _ & Hf & _).
  rewrite Forall_forall in Hf. destruct (Hf _ Hin) as (Hl & Hi & Hh).
  rewrite Hh, Hl, Hi, Hc, Hm, !Z.sub_diag. auto.
Qed.

Lemma replica_in_sync_is_healthy_witness :
  lag_records Demo.us_east_in_sync = 0
  /\ lag_ids Demo.us_east_in_sync = 0
  /\ is_healthy Demo.us_east_in_sync = true.
Proof.
  apply (replica_in_sync_is_healthy Demo.in_sync
           (snd (check_replication_status Demo.in_sync))
           (Demo.snapshot_of Demo.in_sync) Demo.us_east_in_sync).
  - vm_compute. reflexivity.
  - vm_compute. left.
  - reflexivity.
  - reflexivity.
Defined.

(** C2. The alert [create_alert] builds for lag [L] has severity
    [WARNING] when [L < 50] and [CRITICAL] when [L >= 50]. *)
Theorem alert_severity_by_lag
    {W Conn Cursor : Type} `{!Driver W Conn Cursor}
    (region : string) (L : Z) (st : State W Conn) :
  exists a,
    alerts (snd (create_alert region L st)) = alerts st ++ [a]
    /\ alert_lag_count a = L
    /\ (L < 50 -> alert_severity a = WARNING)
    /\ (50 <= L -> alert_severity a = CRITICAL).
Proof.
  destruct (create_alert_eq region L st) as (a & st' & -> & Ha & _ & Hl & Hs & _).
  exists a. simpl. repeat split; try assumption; intros Hlt; rewrite Hs.
  - apply Z.ltb_lt in Hlt. now rewrite Hlt.
  - apply Z.ltb_ge in Hlt. now rewrite Hlt.
Qed.

Lemma alert_severity_by_lag_witness :
  exists a,
    alerts (snd (create_alert "us-east" 60 Demo.lagging))
    = alerts Demo.lagging ++ [a]
    /\ alert_lag_count a = 60
    /\ (60 < 50 -> alert_severity a = WARNING)
    /\ (50 <= 60 -> alert_severity a = CRITICAL).
Proof. exact (alert_severity_by_lag "us-east" 60 Demo.lagging). Defined.



(** C10. Only replica-side failures are caught: when the primary's
    [COUNT] or [MAX(id)] query raises, [check_replication_status] raises
    that exception, and neither a snapshot nor an alert has been
    appended. *)
Theorem primary_failure_propagates
    {W Conn Cursor : Type} `{!Driver W Conn Cursor}
    (st : State W Conn) (c : Conn) (cur : Cursor) (w1 : W) (e : exn) :
  connections st !! "us-west" = Some c ->
  pg_cursor c (world st) = (Ok cur, w1) ->
  query_raises cur w1 e ->
  exists st',
    check_replication_status st = (Raise e, st')
    /\ metrics_history st' = metrics_history st
    /\ alerts st' = alerts st
    /\ connections st' = connections st.
Proof. apply primary_query_raises. Qed.

Lemma primary_failure_propagates_witness :
  exists st',
    check_replication_status Demo.primary_without_table
    = (Raise (PgSim.undefined_table replication_test), st')
    /\ metrics_history st' = metrics_history Demo.primary_without_table
    /\ alerts st' = alerts Demo.primary_without_table
    /\ connections st' = connections Demo.primary_without_table.
Proof.
  apply (primary_failure_propagates Demo.primary_without_table 5441 5441
           (world Demo.primary_without_table)).
  - reflexivity.
  - reflexivity.
  - left. exists (world Demo.primary_without_table). reflexivity.
Defined.



(** C9. When [MAX(id)] returns [NULL], as it does over an empty table,
    the poll reports [max_id] as 0, for the primary and for a replica
    alike, and [lag_ids] is computed from the substituted zeros. *)
Theorem null_max_id_reported_as_zero
    {W Conn Cursor : Type} `{!Driver W Conn Cursor} :
  (forall (st : State W Conn) c cur w1 pc w2 w3 snap st',
     connections st !! "us-west" = Some c ->
     pg_cursor c (world st) = (Ok cur, w1) ->
     pg_select_count cur replication_test w1 = (Ok pc, w2) ->
     pg_select_max_id cur replication_test w2 = (Ok None, w3) ->
     check_replication_status st = (Ok snap, st') ->
     primary_max_id (primary_status snap) = 0
     /\ (forall m, Measured m ∈ replicas snap -> lag_ids m = 0 - max_id m))
  /\ (forall pc pm r status (st : State W Conn) c cur w1 n w2 w3,
        connections st !! r = Some c ->
        pg_cursor c (world st) = (Ok cur, w1) ->
        pg_select_count cur replication_test w1 = (Ok n, w2) ->
        pg_select_max_id cur replication_test w2 = (Ok None, w3) ->
        exists m st',
          check_replica pc pm r status st
          = (Ok (append_replica status (Measured m)), st')
          /\ max_id m = 0
          /\ lag_ids m = pm - 0).
Proof.
  split.
  - intros st c cur w1 pc w2 w3 snap st' Hc Hcur Hn Hm E.
    destruct (check_replication_status_primary st c cur w1 pc w2 None w3
                snap st' Hc Hcur Hn Hm E) as [_ Hz].
    split; [exact Hz |].
    apply check_replication_status_returns in E as (_ & _ & _ & Hf & _).
    intros m Hin. rewrite Forall_forall in Hf.
    destruct (Hf _ Hin) as (_ & Hi & _). now rewrite Hi, Hz.
  - intros pc pm r status st c cur w1 n w2 w3 Hc Hcur Hn Hm.
    destruct (replica_queries_answer pc pm r status st c cur w1 n w2 None w3
                Hc Hcur Hn Hm) as (st' & E).
    eexists _, st'. split; [exact E |]. split; reflexivity.
Qed.

Lemma null_max_id_reported_as_zero_witness :
  (primary_max_id (primary_status (Demo.snapshot_of Demo.all_empty)) = 0
   /\ (forall m, Measured m ∈ replicas (Demo.snapshot_of Demo.all_empty) ->
         lag_ids m = 0 - max_id m))
  /\ (exists m st',
        check_replica 0 0 "us-east"
          (Demo.snapshot_of Demo.lagging) Demo.all_empty
        = (Ok (append_replica (Demo.snapshot_of Demo.lagging) (Measured m)), st')
        /\ max_id m = 0
        /\ lag_ids m = 0 - 0).
Proof.
  destruct (@null_max_id_reported_as_zero PgSim.World Z Z _) as [Hp Hr].
  split.
  - apply (Hp Demo.all_empty 5441 5441 (world Demo.all_empty) 0
             (world Demo.all_empty) (world Demo.all_empty)
             (Demo.snapshot_of Demo.all_empty)
             (snd (check_replication_status Demo.all_empty))).
    + reflexivity.
    + reflexivity.
    + reflexivity.
    + reflexivity.
    + vm_compute. reflexivity.
  - apply (Hr 0 0 "us-east" (Demo.snapshot_of Demo.lagging) Demo.all_empty
             5442 5442 (world Demo.all_empty) 0
             (world Demo.all_empty) (world Demo.all_empty));
      reflexivity.
Defined.



Lemma default_regions_distinct : NoDup (map fst default_regions).
Proof.
  simpl.
  repeat (apply NoDup_cons_2;
          [rewrite ?elem_of_cons, elem_of_nil; intuition discriminate |]).
  apply NoDup_nil_2.
Qed.

(** C5. [connect_all] answers true exactly when, after it, every
    configured endpoint has a connection; and when it answers false,
    [run_monitoring] returns at once: the only method it has entered is
    [connect_all], nothing is sent to a server afterwards, and the
    history and the alerts are as before. *)
Theorem connect_all_gates_the_run
    {W Conn Cursor : Type} `{!Driver W Conn Cursor} :
  (forall st : State W Conn,
     NoDup (map fst (regions st)) ->
     dom (connections st) ⊆ list_to_set (map fst (regions st)) ->
     exists b st',
       connect_all st = (Ok b, st')
       /\ (b = true
           <-> forall r, r ∈ map fst (regions st) ->
                 is_Some (connections st' !! r)))
  /\ (forall fuel duration (st st1 : State W Conn),
        connect_all (snd (print_banner st)) = (Ok false, st1) ->
        exists st',
          run_monitoring fuel duration st = Some (Ok tt, st')
          /\ calls st' = calls st ++ [Call_connect_all]
          /\ world st' = world st1
          /\ metrics_history st' = metrics_history st
          /\ alerts st' = alerts st).
Proof.
  split.
  - intros st Hnd Hdom.
    destruct (connect_all_returns st) as (st' & E & Hr & _ & _ & _ & Hd).
    eexists _, st'. split; [exact E |].
    rewrite <- (length_map fst (regions st)).
    apply all_connected_iff; [exact Hnd |].
    etransitivity; [exact Hd |]. apply union_least; [exact Hdom | reflexivity].
  - intros fuel duration st st1 E.
    destruct (connect_all_returns (snd (print_banner st)))
      as (st1' & E' & _ & Hh & Ha & Hc & _).
    rewrite E in E'. injection E' as _ <-.
    unfold run_monitoring, run_prologue.
    erewrite bind_ok by reflexivity.
    rewrite (bind_ok _ _ _ _ _ E). simpl.
    eexists. split; [reflexivity |]. simpl.
    rewrite Hc, Hh, Ha. auto.
Qed.

Lemma connect_all_gates_the_run_witness :
  (exists b st',
     connect_all Demo.fresh_east_down = (Ok b, st')
     /\ (b = true
         <-> forall r, r ∈ map fst (regions Demo.fresh_east_down) ->
               is_Some (connections st' !! r)))
  /\ (exists st',
        run_monitoring 10 8 Demo.fresh_east_down = Some (Ok tt, st')
        /\ calls st' = calls Demo.fresh_east_down ++ [Call_connect_all]
        /\ world st'
           = world (snd (connect_all (snd (print_banner Demo.fresh_east_down))))
        /\ metrics_history st' = metrics_history Demo.fresh_east_down
        /\ alerts st' = alerts Demo.fresh_east_down).
Proof.
  destruct (@connect_all_gates_the_run PgSim.World Z Z _) as [Hiff Hrun].
  split.
  - apply (Hiff Demo.fresh_east_down).
    + exact default_regions_distinct.
    + simpl. rewrite dom_empty. apply empty_subseteq.
  - apply (Hrun 10%nat 8 Demo.fresh_east_down). vm_compute. reflexivity.
Defined.




(* ===================================================================== *)
(** * Further properties of the methods *)
(* ===================================================================== *)

(** ** Entries and alerts of a poll *)

Section PollEntries.

Context {W Conn Cursor : Type} `{!Driver W Conn Cursor}.

Lemma poll_regions_distinct (snap : StatusSnapshot) :
  map status_region (replicas snap) = ["us-east"; "eu-west"] ->
  NoDup (map status_region (replicas snap)).
Proof.
  intros ->. apply NoDup_cons_2; [| apply NoDup_singleton].
  intros ?%list_elem_of_singleton. discriminate.
Qed.

(** With one entry per region, an entry that calls for no alert has
    none. *)
Lemma no_alert_for_quiet_entry entries (new : list Alert) e :
  NoDup (map status_region entries) ->
  map alert_key new = flat_map alerts_due entries ->
  e ∈ entries ->
  alerts_due e = [] ->
  filter (fun a => alert_region a = status_region e) new = [].
Proof.
  revert new. induction entries as [| e0 entries IH]; intros new Hnd Hk Hin Hq.
  - now apply elem_of_nil in Hin.
  - simpl in Hnd, Hk. apply NoDup_cons in Hnd as [Hfresh Hnd].
    apply map_eq_app in Hk as (new1 & new2 & -> & Hk1 & Hk2).
    rewrite filter_app. apply elem_of_cons in Hin as [<- | Hin].
    + rewrite Hq in Hk1. apply map_eq_nil in Hk1 as ->. simpl.
      now apply no_alert_for_absent_region with (entries := entries).
    + rewrite (no_alert_for_other_region new1 _ (status_region e) Hk1).
      * simpl. now apply IH.
      * intros k Hdue Heq. apply alerts_due_region in Hdue.
        apply Hfresh. rewrite <- Hdue, Heq.
        apply list_elem_of_In, in_map_iff. exists e.
        split; [reflexivity | now apply list_elem_of_In].
Qed.

Lemma length_alerts_due entries :
  (length (flat_map alerts_due entries) <= length entries)%nat.
Proof.
  induction entries as [| e entries IH]; simpl; [lia |].
  rewrite length_app.
  assert (length (alerts_due e) <= 1)%nat; [| lia].
  destruct e as [m | f]; simpl; [destruct (is_healthy m) |]; simpl; lia.
Qed.

End PollEntries.

(** ** Missing connections *)

Section MissingConnections.

Context {W Conn Cursor : Type} `{!Driver W Conn Cursor}.

(** What [self.connections[region]] raises for an absent key. *)
Definition key_error (region : string) : exn :=
  {| exn_class := "KeyError"; exn_str := "'" +:+ region +:+ "'" |}.

Lemma check_replica_without_connection pc pm r status (st : State W Conn) :
  connections st !! r = None ->
  check_replica pc pm r status st = (Raise (key_error r), st).
Proof.
  intros Hc. unfold check_replica, bind, connection. now rewrite Hc.
Qed.

(** A replica that answers and is ten or more records behind: its turn
    of the loop appends the entry and one alert. *)
Lemma check_replica_lagging pc pm r status (st : State W Conn)
    c cur w1 n w2 m w3 :
  connections st !! r = Some c ->
  pg_cursor c (world st) = (Ok cur, w1) ->
  pg_select_count cur replication_test w1 = (Ok n, w2) ->
  pg_select_max_id cur replication_test w2 = (Ok m, w3) ->
  10 <= pc - n ->
  exists st' a,
    check_replica pc pm r status st
    = (Ok (append_replica status
             (Measured {| region := r; record_count := n;
                          max_id := or_zero m;
                          lag_records := pc - n;
                          lag_ids := pm - or_zero m;
                          is_healthy := false |})), st')
    /\ alerts st' = alerts st ++ [a]
    /\ alert_region a = r
    /\ alert_lag_count a = pc - n
    /\ metrics_history st' = metrics_history st
    /\ connections st' = connections st.
Proof.
  intros Hc Hcur Hn Hm Hlag.
  unfold check_replica, bind, connection, call, call_unit, try_except, ret.
  rewrite Hc, Hcur. simpl. rewrite Hn. simpl. rewrite Hm. simpl.
  apply Z.ltb_ge in Hlag. rewrite Hlag. simpl.
  match goal with
  | |- context [create_alert ?x ?l ?s] =>
      destruct (create_alert_eq x l s)
        as (a & st1 & -> & Ha & Hr & Hl & _ & Hh & Hk & _)
  end.
  simpl. exists (with_world (pg_cursor_close cur (world st1)) st1), a.
  simpl. rewrite Ha, Hh, Hk. repeat split; assumption || reflexivity.
Qed.

End MissingConnections.

(** ** What [connect_all] logs *)

Definition is_info (r : LogRecord) : bool :=
  match level r with INFO => true | _ => false end.

Section ConnectLog.

Context {W Conn Cursor : Type} `{!Driver W Conn Cursor}.

Lemma all_info_iff (recs : list LogRecord) :
  length (List.filter is_info recs) = length recs
  <-> forall r, r ∈ recs -> level r = INFO.
Proof.
  assert (Hle : forall l : list LogRecord,
             (length (List.filter is_info l) <= length l)%nat).
  { induction l as [| x l IH]; simpl; [lia |].
    destruct (is_info x); simpl; lia. }
  induction recs as [| r recs IH]; simpl.
  - split; [intros _ r Hr; now apply elem_of_nil in Hr | reflexivity].
  - unfold is_info at 1. destruct (level r) eqn:Hl; simpl.
    + rewrite Nat.succ_inj_wd, IH. split.
      * intros Hall r' [-> | Hin]%elem_of_cons; auto.
      * intros Hall r' Hin. apply Hall. now right.
    + split.
      * intros Heq. specialize (Hle recs). lia.
      * intros Hall. specialize (Hall r (list_elem_of_here _ _)). congruence.
    + split.
      * intros Heq. specialize (Hle recs). lia.
      * intros Hall. specialize (Hall r (list_elem_of_here _ _)). congruence.
Qed.

(** One region: one record, [INFO] with the connection stored or [ERROR]
    with the connections as they were. *)
Lemma connect_region_logs entry (st : State W Conn) :
  exists st' rec,
    connect_region entry st = (Ok tt, st')
    /\ log st' = log st ++ [rec]
    /\ regions st' = regions st
    /\ ((level rec = INFO
         /\ exists c, connections st' = <[fst entry := c]> (connections st))
        \/ (level rec = ERROR /\ connections st' = connections st)).
Proof.
  destruct entry as [r config].
  unfold connect_region, try_except, bind, call, modify, logger. simpl.
  destruct (pg_connect _ _ _ _ _ (world st)) as [[conn | e] w1]; simpl.
  - destruct (pg_set_autocommit conn true w1) as [[[] | e] w2]; simpl;
      eexists _, _; (split; [reflexivity |]); simpl;
      (split; [reflexivity |]); (split; [reflexivity |]).
    + left. split; [reflexivity |]. now exists conn.
    + right. split; reflexivity.
  - eexists _, _. split; [reflexivity |]. simpl.
    split; [reflexivity |]. split; [reflexivity |]. right. split; reflexivity.
Qed.

Lemma connect_loop_logs items (st : State W Conn) :
  NoDup (map fst items) ->
  (forall r, r ∈ map fst items -> connections st !! r = None) ->
  exists st' recs,
    for_ items connect_region st = (Ok tt, st')
    /\ log st' = log st ++ recs
    /\ length recs = length items
    /\ regions st' = regions st
    /\ size (connections st')
       = (size (connections st) + length (List.filter is_info recs))%nat
    /\ (forall k, k ∉ map fst items ->
          connections st' !! k = connections st !! k).
Proof.
  unfold for_. revert st.
  induction items as [| entry items IH]; intros st Hnd Hfree.
  - exists st, []. simpl. unfold ret. rewrite app_nil_r, Nat.add_0_r. auto 10.
  - simpl in Hnd. apply NoDup_cons in Hnd as [Hfresh Hnd].
    destruct (connect_region_logs entry st) as (st1 & rec & E1 & Hl1 & Hr1 & Hc1).
    assert (Hfree1 : forall r, r ∈ map fst items -> connections st1 !! r = None).
    { intros r Hr. destruct Hc1 as [(_ & c & ->) | (_ & ->)].
      - rewrite lookup_insert_ne; [apply Hfree; now right |].
        intros <-. now apply Hfresh.
      - apply Hfree. now right. }
    destruct (IH st1 Hnd Hfree1) as (st2 & recs & E2 & Hl2 & Hn2 & Hr2 & Hs2 & Hk2).
    exists st2, (rec :: recs). simpl. rewrite (bind_ok _ _ _ _ _ E1).
    split; [exact E2 |]. rewrite Hl2, Hl1, <- app_assoc, Hn2, Hr2, Hr1, Hs2.
    split; [reflexivity |]. split; [reflexivity |]. split; [reflexivity |].
    split.
    + unfold is_info at 2. destruct Hc1 as [(-> & c & ->) | (-> & ->)]; simpl.
      * rewrite map_size_insert_None; [lia |]. apply Hfree. now left.
      * reflexivity.
    + intros k Hk. apply not_elem_of_cons in Hk as [Hne Hk].
      rewrite Hk2 by exact Hk.
      destruct Hc1 as [(_ & c & ->) | (_ & ->)]; [| reflexivity].
      now rewrite lookup_insert_ne.
Qed.

End ConnectLog.

(** ** Relations every method of a run respects *)

Section RunFrame.

Context {W Conn Cursor : Type} `{!Driver W Conn Cursor}.

Variable R : relation (State W Conn).
Hypothesis R_refl : forall st, R st st.
Hypothesis R_trans : forall a b c, R a b -> R b c -> R a c.
Hypothesis R_world : forall st w, R st (with_world w st).
Hypothesis R_prologue : steps R run_prologue.
Hypothesis R_tick : forall i, steps R (monitoring_tick i).
Hypothesis R_summary : forall d, steps R (print_summary d).

Lemma monitoring_loop_steps fuel d start i (st : State W Conn) r :
  monitoring_loop fuel d start i st = Some r -> R st (snd r).
Proof.
  revert i st. induction fuel as [| fuel IH]; intros i st; simpl;
    unfold call_total; destruct (time_time (world st)) as [t w];
    destruct (t - start <? d * 1000); try discriminate;
    try (intros [= <-]; apply R_world).
  pose proof (R_tick (i + 1) (with_world w st)) as Ht.
  destruct (monitoring_tick (i + 1) (with_world w st)) as [[[] | e] st2].
  - intros E. apply IH in E.
    eapply R_trans; [apply R_world |]. eapply R_trans; [exact Ht | exact E].
  - intros [= <-]. eapply R_trans; [apply R_world | exact Ht].
Qed.

Lemma run_monitoring_steps fuel d (st : State W Conn) r :
  run_monitoring fuel d st = Some r -> R st (snd r).
Proof.
  unfold run_monitoring.
  pose proof (R_prologue st) as Hp.
  destruct (run_prologue st) as [[[start |] | e] st1]; simpl in Hp.
  - pose proof (monitoring_loop_steps fuel d start 0 st1) as Hl.
    destruct (monitoring_loop fuel d start 0 st1) as [[[n | e] st2] |];
      [| | discriminate].
    + intros [= <-]. specialize (Hl _ eq_refl).
      eapply R_trans; [exact Hp |].
      eapply R_trans; [exact Hl | apply R_summary].
    + intros [= <-]. specialize (Hl _ eq_refl).
      eapply R_trans; [exact Hp | exact Hl].
  - intros [= <-]. exact Hp.
  - intros [= <-]. exact Hp.
Qed.

End RunFrame.

(** ** The history only grows *)

Section History.

Context {W Conn Cursor : Type} `{!Driver W Conn Cursor}.

Abbreviation St := (State W Conn).

(** The snapshots of [st] are still there, in place and unchanged. *)
Definition history_kept (st st' : St) : Prop :=
  metrics_history st `prefix_of` metrics_history st'.

Lemma history_kept_refl st : history_kept st st.
Proof. unfold history_kept. reflexivity. Qed.

Lemma history_kept_trans a b c :
  history_kept a b -> history_kept b c -> history_kept a c.
Proof. unfold history_kept. intros. etransitivity; eassumption. Qed.

Ltac history_frame :=
  pose proof history_kept_refl as Hrefl;
  pose proof history_kept_trans as Htrans;
  assert (Hw : forall (st : St) w, history_kept st (with_world w st))
    by (intros; unfold history_kept; simpl; reflexivity);
  assert (Hl : forall (st : St) l, history_kept st (with_log l st))
    by (intros; unfold history_kept; simpl; reflexivity);
  assert (Ho : forall (st : St) o, history_kept st (with_stdout o st))
    by (intros; unfold history_kept; simpl; reflexivity);
  assert (Hc : forall (st : St) c, history_kept st (with_calls c st))
    by (intros; unfold history_kept; simpl; reflexivity);
  frame ltac:(intros; unfold history_kept; simpl;
              first [reflexivity | apply prefix_app_r; reflexivity]).

Lemma connect_all_keeps_history : steps history_kept connect_all.
Proof. unfold connect_all, connect_region. history_frame. Qed.

Lemma setup_primary_keeps_history : steps history_kept setup_primary.
Proof. unfold setup_primary. history_frame. Qed.

Lemma simulate_writes_keeps_history n : steps history_kept (simulate_writes n).
Proof. unfold simulate_writes. history_frame. Qed.

Lemma create_alert_keeps_history r lag : steps history_kept (create_alert r lag).
Proof. unfold create_alert. history_frame. Qed.

Lemma check_replication_status_keeps_history :
  steps history_kept check_replication_status.
Proof.
  unfold check_replication_status, check_replica, create_alert. history_frame.
Qed.

Lemma print_status_keeps_history status :
  steps history_kept (print_status status).
Proof. unfold print_status, print_replica. history_frame. Qed.

Lemma monitoring_tick_keeps_history i : steps history_kept (monitoring_tick i).
Proof.
  pose proof simulate_writes_keeps_history.
  pose proof check_replication_status_keeps_history.
  pose proof print_status_keeps_history.
  unfold monitoring_tick. history_frame.
Qed.

Lemma print_summary_keeps_history d : steps history_kept (print_summary d).
Proof. unfold print_summary. history_frame. Qed.

Lemma run_prologue_keeps_history : steps history_kept run_prologue.
Proof.
  pose proof connect_all_keeps_history.
  pose proof setup_primary_keeps_history.
  unfold run_prologue, print_banner. history_frame.
Qed.

End History.

(** ** Connections stay under configured names *)

Section Configured.

Context {W Conn Cursor : Type} `{!Driver W Conn Cursor}.

Abbreviation St := (State W Conn).

(** Every connection is kept under the name of a configured region. *)
Definition configured (st : St) : Prop :=
  dom (connections st) ⊆ list_to_set (map fst (regions st)).

(** The configuration and the connections are as before. *)
Definition same_config (st st' : St) : Prop :=
  regions st' = regions st /\ connections st' = connections st.

Lemma same_config_refl st : same_config st st.
Proof. unfold same_config. auto. Qed.

Lemma same_config_trans a b c :
  same_config a b -> same_config b c -> same_config a c.
Proof. unfold same_config. intros (-> & ->) (-> & ->). auto. Qed.

Ltac config_frame :=
  pose proof same_config_refl as Hrefl;
  pose proof same_config_trans as Htrans;
  assert (Hw : forall (st : St) w, same_config st (with_world w st))
    by (intros; unfold same_config; simpl; auto);
  assert (Hl : forall (st : St) l, same_config st (with_log l st))
    by (intros; unfold same_config; simpl; auto);
  assert (Ho : forall (st : St) o, same_config st (with_stdout o st))
    by (intros; unfold same_config; simpl; auto);
  assert (Hc : forall (st : St) c, same_config st (with_calls c st))
    by (intros; unfold same_config; simpl; auto);
  frame ltac:(intros; unfold same_config; simpl; auto).

Lemma setup_primary_same_config : steps same_config setup_primary.
Proof. unfold setup_primary. config_frame. Qed.

Lemma simulate_writes_same_config n : steps same_config (simulate_writes n).
Proof. unfold simulate_writes. config_frame. Qed.

Lemma check_replication_status_same_config :
  steps same_config check_replication_status.
Proof.
  unfold check_replication_status, check_replica, create_alert. config_frame.
Qed.

Lemma print_status_same_config status : steps same_config (print_status status).
Proof. unfold print_status, print_replica. config_frame. Qed.

Lemma print_summary_same_config d : steps same_config (print_summary d).
Proof. unfold print_summary. config_frame. Qed.

Lemma monitoring_tick_same_config i : steps same_config (monitoring_tick i).
Proof.
  pose proof simulate_writes_same_config.
  pose proof check_replication_status_same_config.
  pose proof print_status_same_config.
  unfold monitoring_tick. config_frame.
Qed.

(** The configuration is as before and connections were only added
    under configured names. *)
Definition config_kept (st st' : St) : Prop :=
  regions st' = regions st
  /\ dom (connections st')
     ⊆ dom (connections st) ∪ list_to_set (map fst (regions st)).

Lemma config_kept_refl st : config_kept st st.
Proof. unfold config_kept. split; [reflexivity | apply union_subseteq_l]. Qed.

Lemma config_kept_trans a b c :
  config_kept a b -> config_kept b c -> config_kept a c.
Proof.
  unfold config_kept. intros (Hr1 & Hd1) (Hr2 & Hd2).
  split; [congruence |]. rewrite Hr1 in Hd2.
  etransitivity; [exact Hd2 |].
  apply union_least; [exact Hd1 | apply union_subseteq_r].
Qed.

Lemma same_config_kept a b : same_config a b -> config_kept a b.
Proof.
  intros (Hr & Hc). unfold config_kept. rewrite Hr, Hc.
  split; [reflexivity | apply union_subseteq_l].
Qed.

Lemma config_kept_configured a b :
  config_kept a b -> configured a -> configured b.
Proof.
  unfold config_kept, configured. intros (-> & Hd) Ha.
  etransitivity; [exact Hd |]. apply union_least; [exact Ha | reflexivity].
Qed.

Lemma connect_all_config_kept : steps config_kept connect_all.
Proof.
  intros st. destruct (connect_all_returns st) as (st' & -> & Hr & _ & _ & _ & Hd).
  split; assumption.
Qed.

Lemma run_prologue_config_kept : steps config_kept run_prologue.
Proof.
  pose proof config_kept_refl as Hrefl.
  pose proof config_kept_trans as Htrans.
  pose proof connect_all_config_kept.
  assert (steps config_kept setup_primary)
    by (intros st; apply same_config_kept, setup_primary_same_config).
  assert (Hw : forall (st : St) w, config_kept st (with_world w st))
    by (intros; apply same_config_kept; unfold same_config; simpl; auto).
  assert (Hl : forall (st : St) l, config_kept st (with_log l st))
    by (intros; apply same_config_kept; unfold same_config; simpl; auto).
  assert (Ho : forall (st : St) o, config_kept st (with_stdout o st))
    by (intros; apply same_config_kept; unfold same_config; simpl; auto).
  assert (Hc : forall (st : St) c, config_kept st (with_calls c st))
    by (intros; apply same_config_kept; unfold same_config; simpl; auto).
  unfold run_prologue, print_banner. frame ltac:(fail).
Qed.

Lemma run_monitoring_config_kept fuel d (st : St) r :
  run_monitoring fuel d st = Some r -> config_kept st (snd r).
Proof.
  apply (run_monitoring_steps config_kept).
  - apply config_kept_trans.
  - intros; apply same_config_kept; unfold same_config; simpl; auto.
  - apply run_prologue_config_kept.
  - intros i st0. apply same_config_kept, monitoring_tick_same_config.
  - intros d0 st0. apply same_config_kept, print_summary_same_config.
Qed.

End Configured.

(** ** What the reports print *)

(** The lines [print_replica] prints for an entry. *)
Definition replica_lines (entry : ReplicaStatus) : list string :=
  match entry with
  | Failed f =>
      [ nl +:+ "  " +:+ upper (failed_region f) +:+ ": ERROR";
        "    " +:+ error f ]
  | Measured m =>
      [ nl +:+ "  " +:+ upper (region m) +:+ ": "
          +:+ (if is_healthy m then "HEALTHY" else "LAGGING");
        "    Records: " +:+ fmt_thousands (record_count m);
        "    Max ID: " +:+ fmt_thousands (max_id m);
        "    Lag: " +:+ Py.str (lag_records m) +:+ " records" ]
      ++ (if 0 <? lag_records m
          then ["    Status: Behind by " +:+ Py.str (lag_records m)
                +:+ " records"]
          else [])
  end.

(** The alerts [print_status] counts as active for a snapshot. *)
Definition recent_alerts (status : StatusSnapshot) (all_alerts : list Alert)
    : list Alert :=
  List.filter
    (fun a => str_gt (alert_timestamp a) (str_take 19 (timestamp status)))
    all_alerts.

(** The lines [print_status] prints. *)
Definition status_lines (status : StatusSnapshot) (all_alerts : list Alert)
    : list string :=
  [ nl +:+ rule;
    "MULTI-REGION REPLICATION STATUS - " +:+ str_take 19 (timestamp status);
    rule;
    nl +:+ "PRIMARY (us-west):";
    "  Total Records: "
      +:+ fmt_thousands (primary_record_count (primary_status status));
    "  Max ID: " +:+ fmt_thousands (primary_max_id (primary_status status));
    nl +:+ "REPLICAS:" ]
  ++ flat_map replica_lines (replicas status)
  ++ match recent_alerts status all_alerts with
     | [] => []
     | _ :: _ =>
         [ nl +:+ "ACTIVE ALERTS: "
             +:+ Py.str (Z.of_nat (length (recent_alerts status all_alerts))) ]
     end
  ++ [rule].

Section Reports.

Context {W Conn Cursor : Type} `{!Driver W Conn Cursor}.

Abbreviation St := (State W Conn).

(** Only the output differs, by the given lines. *)
Definition printed (lines : list string) (st st' : St) : Prop :=
  stdout st' = stdout st ++ lines
  /\ world st' = world st
  /\ log st' = log st
  /\ calls st' = calls st
  /\ metrics_history st' = metrics_history st
  /\ alerts st' = alerts st
  /\ connections st' = connections st
  /\ regions st' = regions st.

Lemma printed_nil st : printed [] st st.
Proof. unfold printed. rewrite app_nil_r. auto 10. Qed.

Lemma printed_app l1 l2 a b c :
  printed l1 a b -> printed l2 b c -> printed (l1 ++ l2) a c.
Proof.
  unfold printed.
  intros (-> & -> & -> & -> & -> & -> & -> & ->)
         (-> & -> & -> & -> & -> & -> & -> & ->).
  rewrite app_assoc. auto 10.
Qed.

Lemma print_printed line (st : St) :
  printed [line] st (with_stdout (stdout st ++ [line]) st).
Proof. unfold printed. simpl. auto 10. Qed.

Lemma print_replica_prints entry (st : St) :
  exists st',
    print_replica entry st = (Ok tt, st') /\ printed (replica_lines entry) st st'.
Proof.
  destruct entry as [m | f]; unfold print_replica, bind, print, modify, ret;
    simpl.
  - destruct (0 <? lag_records m);
      (eexists; split; [reflexivity |]); unfold printed; simpl;
      rewrite <- !app_assoc; simpl; auto 10.
  - eexists. split; [reflexivity |]. unfold printed. simpl.
    rewrite <- !app_assoc. simpl. auto 10.
Qed.

Lemma print_replicas_print entries (st : St) :
  exists st',
    for_ entries print_replica st = (Ok tt, st')
    /\ printed (flat_map replica_lines entries) st st'.
Proof.
  unfold for_. revert st. induction entries as [| e entries IH]; intros st.
  - exists st. split; [reflexivity | apply printed_nil].
  - destruct (print_replica_prints e st) as (st1 & E1 & H1).
    destruct (IH st1) as (st2 & E2 & H2).
    exists st2. simpl. rewrite (bind_ok _ _ _ _ _ E1).
    split; [exact E2 | now apply printed_app with (b := st1)].
Qed.

Lemma print_status_prints status (st : St) :
  exists st',
    print_status status st = (Ok tt, st')
    /\ printed (status_lines status (alerts st))
         (with_calls (calls st ++ [Call_print_status]) st) st'.
Proof.
  unfold print_status.
  erewrite bind_ok by (unfold enter, modify; reflexivity).
  do 7 (erewrite bind_ok by (unfold print, modify; reflexivity)).
  match goal with
  | |- context [bind (for_ (replicas status) print_replica) _ ?s] =>
      destruct (print_replicas_print (replicas status) s)
        as (st1 & E1 & Hs & Hw & Hl & Hc & Hh & Ha & Hn & Hr)
  end.
  rewrite (bind_ok _ _ _ _ _ E1).
  erewrite bind_ok by (unfold gets; reflexivity).
  rewrite Ha. simpl alerts.
  unfold status_lines, recent_alerts.
  destruct (alerts st) as [| a0 rest] eqn:Halerts.
  - erewrite bind_ok by reflexivity.
    eexists. split; [reflexivity |]. unfold printed. simpl in *.
    rewrite Hs, Hw, Hl, Hc, Hh, Ha, Hn, Hr, Halerts, <- !app_assoc. simpl.
    auto 10.
  - match goal with
    | |- context [match List.filter ?f ?l with _ => _ end] =>
        destruct (List.filter f l) as [| a1 recent] eqn:Hrecent
    end.
    + erewrite bind_ok by reflexivity.
      eexists. split; [reflexivity |]. unfold printed. simpl in *.
      rewrite Hs, Hw, Hl, Hc, Hh, Ha, Hn, Hr, Halerts, <- !app_assoc. simpl.
      auto 10.
    + erewrite bind_ok by (unfold print, modify; reflexivity).
      eexists. split; [reflexivity |]. unfold printed. simpl in *.
      rewrite Hs, Hw, Hl, Hc, Hh, Ha, Hn, Hr, Halerts, <- !app_assoc. simpl.
      auto 10.
Qed.

End Reports.

(** The lines [print_summary] prints. *)
Definition summary_lines (duration : Z) (collected : nat)
    (all_alerts : list Alert) : list string :=
  [ nl +:+ rule;
    "MONITORING SUMMARY";
    rule;
    "Duration: " +:+ Py.str duration +:+ "s";
    "Metrics Collected: " +:+ Py.str (Z.of_nat collected);
    "Total Alerts: " +:+ Py.str (Z.of_nat (length all_alerts)) ]
  ++ match all_alerts with
     | [] => []
     | _ :: _ =>
         (nl +:+ "Alert Summary:")
           :: map (fun alert =>
                     "  [" +:+ str_take 19 (alert_timestamp alert) +:+ "] "
                     +:+ alert_region alert +:+ ": " +:+ alert_message alert)
                (last5 all_alerts)
     end
  ++ [rule].

Section Summary.

Context {W Conn Cursor : Type} `{!Driver W Conn Cursor}.

Abbreviation St := (State W Conn).

Lemma print_each_prints {A} (f : A -> string) (l : list A) (st : St) :
  exists st',
    for_ l (fun x => print (f x)) st = (Ok tt, st') /\ printed (map f l) st st'.
Proof.
  unfold for_. revert st. induction l as [| x l IH]; intros st.
  - exists st. split; [reflexivity | apply printed_nil].
  - destruct (IH (with_stdout (stdout st ++ [f x]) st)) as (st2 & E2 & H2).
    exists st2. simpl. erewrite bind_ok by (unfold print, modify; reflexivity).
    split; [exact E2 |].
    apply (printed_app [f x] (map f l)) with (b := with_stdout (stdout st ++ [f x]) st);
      [apply print_printed | exact H2].
Qed.

Lemma print_summary_prints duration (st : St) :
  exists st',
    print_summary duration st = (Ok tt, st')
    /\ printed (summary_lines duration (length (metrics_history st)) (alerts st))
         st st'.
Proof.
  unfold print_summary.
  do 4 (erewrite bind_ok by (unfold print, modify; reflexivity)).
  erewrite bind_ok by (unfold gets; reflexivity).
  erewrite bind_ok by (unfold print, modify; reflexivity).
  erewrite bind_ok by (unfold gets; reflexivity).
  erewrite bind_ok by (unfold print, modify; reflexivity).
  simpl alerts. simpl metrics_history. unfold summary_lines.
  destruct (alerts st) as [| a0 rest] eqn:Halerts.
  - erewrite bind_ok by reflexivity.
    eexists. split; [reflexivity |]. unfold printed. simpl.
    rewrite <- !app_assoc. simpl. rewrite Halerts. auto 10.
  - match goal with
    | |- context [for_ ?l ?body] =>
        match goal with
        | |- context [bind (bind (print ?line) _) _ ?s] =>
            destruct (print_each_prints
                        (fun alert =>
                           "  [" +:+ str_take 19 (alert_timestamp alert) +:+ "] "
                           +:+ alert_region alert +:+ ": " +:+ alert_message alert)
                        l (with_stdout (stdout s ++ [line]) s))
              as (st1 & E1 & Hs & Hw & Hl & Hc & Hh & Ha & Hn & Hr)
        end
    end.
    erewrite bind_ok.
    2: { erewrite bind_ok by (unfold print, modify; reflexivity). exact E1. }
    eexists. split; [reflexivity |]. unfold printed. simpl in *.
    rewrite Hs, Hw, Hl, Hc, Hh, Ha, Hn, Hr, Halerts, <- !app_assoc. simpl.
    auto 10.
Qed.

Lemma last5_suffix (l : list Alert) :
  last5 l `suffix_of` l /\ length (last5 l) = Nat.min 5 (length l).
Proof.
  unfold last5. split.
  - apply suffix_drop.
  - rewrite length_drop. lia.
Qed.

End Summary.

(** ** Which alerts a report counts as active *)

Section ActiveAlerts.

Lemma ascii_compare_refl (c : ascii) : Ascii.compare c c = Eq.
Proof. unfold Ascii.compare. apply N.compare_refl. Qed.

Lemma string_compare_refl (s : string) : String.compare s s = Eq.
Proof.
  induction s as [| c s IH]; simpl; [reflexivity |].
  now rewrite ascii_compare_refl.
Qed.

(** A string is below each of its proper extensions. *)
Lemma str_gt_proper_extension (p rest : string) :
  rest <> EmptyString -> str_gt (p +:+ rest) p = true.
Proof.
  intros Hrest. unfold str_gt, String.ltb.
  induction p as [| c p IH]; simpl.
  - destruct rest; [contradiction | reflexivity].
  - now rewrite ascii_compare_refl.
Qed.

Lemma str_gt_irrefl (s : string) : str_gt s s = false.
Proof. unfold str_gt, String.ltb. now rewrite string_compare_refl. Qed.

Lemma filter_nonempty {A} (f : A -> bool) (l : list A) x :
  x ∈ l -> f x = true ->
  exists y rest, List.filter f l = y :: rest.
Proof.
  intros Hin Hf. destruct (List.filter f l) as [| y rest] eqn:E; [| eauto].
  apply list_elem_of_In in Hin.
  assert (Hx : In x (List.filter f l)) by (apply filter_In; auto).
  rewrite E in Hx. contradiction.
Qed.

End ActiveAlerts.

(** ** Writes against the stand-in *)

Module SimWrites.
Import PgSim.

Abbreviation St := (State World Z).

(** The body of the loop of [simulate_writes] for cursor [p]. *)
Definition write_one (p : Z) (i : Z) : @M World Z unit :=
  now <- call_total now_str ;;
  call (pg_execute p
          [INSERT_replication_test "us-west"
             ("Test data " +:+ Py.str i +:+ " at " +:+ now)]).

(** Each turn of the loop appends one row numbered by the sequence. *)
Lemma insert_loop_rows (l : list Z) (st : St) p srv tb :
  servers (world st) !! p = Some srv ->
  online srv = true ->
  test_table (database srv) = Some tb ->
  exists st' srv' added,
    for_ l (write_one p) st = (Ok tt, st')
    /\ servers (world st') !! p = Some srv'
    /\ online srv' = true
    /\ test_table (database srv')
       = Some {| rows := rows tb ++ added;
                 next_serial := next_serial tb + Z.of_nat (length l) |}
    /\ map id added = seqZ (next_serial tb) (Z.of_nat (length l))
    /\ Forall (fun r => row_region r = "us-west") added
    /\ txn_table (database srv') = txn_table (database srv)
    /\ clock (world st') = clock (world st)
    /\ connections st' = connections st
    /\ (forall q, q <> p -> servers (world st') !! q = servers (world st) !! q).
Proof.
  unfold for_. revert st srv tb.
  induction l as [| i l IH]; intros st srv tb Hs Ho Ht.
  - exists st, srv, []. simpl. rewrite app_nil_r, Z.add_0_r.
    destruct tb. simpl in *. repeat split; auto.
  - simpl. unfold write_one at 1.
    unfold bind at 1. unfold bind at 1. unfold call_total, call. simpl.
    unfold execute, reach. rewrite Hs, Ho. simpl. rewrite Ht. simpl.
    match goal with
    | |- context [for_each l ?body tt ?s] =>
        destruct (IH s
                    (with_database
                       {| test_table :=
                            Some {| rows := rows tb
                                      ++ [{| id := next_serial tb;
                                             row_region := "us-west";
                                             row_timestamp := clock (world st);
                                             data := "Test data " +:+ Py.str i
                                                     +:+ " at "
                                                     +:+ render " " (clock (world st)) |}];
                                    next_serial := next_serial tb + 1 |};
                          txn_table := txn_table (database srv) |} srv)
                    {| rows := rows tb
                         ++ [{| id := next_serial tb;
                                row_region := "us-west";
                                row_timestamp := clock (world st);
                                data := "Test data " +:+ Py.str i
                                        +:+ " at "
                                        +:+ render " " (clock (world st)) |}];
                       next_serial := next_serial tb + 1 |})
          as (st' & srv' & added & E & Hs' & Ho' & Ht' & Hid & Hreg & Htx
              & Hk & Hc & Hq)
    end.
    { cbn [world with_world servers]. apply lookup_insert_eq. }
    { exact Ho. }
    { reflexivity. }
    eexists st', srv', (_ :: added). split; [exact E |].
    split; [exact Hs' |]. split; [exact Ho' |].
    cbn [rows next_serial] in Ht', Hid.
    split; [rewrite Ht', <- app_assoc; simpl; f_equal; f_equal;
            try reflexivity; lia |].
    split.
    { rewrite seqZ_cons by lia.
      replace (Z.pred (Z.of_nat (S (length l)))) with (Z.of_nat (length l))
        by lia.
      replace (Z.succ (next_serial tb)) with (next_serial tb + 1) by lia.
      simpl. f_equal. exact Hid. }
    split; [constructor; [reflexivity | exact Hreg] |].
    split; [exact Htx |]. split; [exact Hk |]. split; [exact Hc |].
    intros q Hne. rewrite (Hq q Hne). cbn [world with_world servers].
    now rewrite lookup_insert_ne.
Qed.

Lemma simulate_writes_rows count (st : St) p srv tb :
  connections st !! "us-west" = Some p ->
  servers (world st) !! p = Some srv ->
  online srv = true ->
  test_table (database srv) = Some tb ->
  exists st' srv' added,
    simulate_writes count st = (Ok tt, st')
    /\ servers (world st') !! p = Some srv'
    /\ online srv' = true
    /\ test_table (database srv')
       = Some {| rows := rows tb ++ added;
                 next_serial := next_serial tb + Z.of_nat (Z.to_nat count) |}
    /\ length added = Z.to_nat count
    /\ map id added = seqZ (next_serial tb) count
    /\ Forall (fun r => row_region r = "us-west") added
    /\ txn_table (database srv') = txn_table (database srv)
    /\ clock (world st') = clock (world st)
    /\ connections st' = connections st
    /\ (forall q, q <> p -> servers (world st') !! q = servers (world st) !! q).
Proof.
  intros Hc Hs Ho Ht. unfold simulate_writes.
  erewrite bind_ok by (unfold enter, modify; reflexivity).
  erewrite bind_ok by (unfold connection; simpl; rewrite Hc; reflexivity).
  erewrite bind_ok by reflexivity.
  destruct (insert_loop_rows (seqZ 0 count)
              (with_world (world st)
                 (with_calls (calls st ++ [Call_simulate_writes count]) st))
              p srv tb Hs Ho Ht)
    as (st1 & srv' & added & E & Hs' & Ho' & Ht' & Hid & Hreg & Htx & Hk & Hc' & Hq).
  unfold write_one in E. rewrite (bind_ok _ _ _ _ _ E).
  rewrite length_seqZ in Ht', Hid.
  eexists _, srv', added. split; [reflexivity |]. simpl.
  split; [exact Hs' |]. split; [exact Ho' |]. split; [exact Ht' |].
  split.
  { rewrite <- (length_map id), Hid, length_seqZ. lia. }
  split.
  { rewrite Hid. unfold seqZ. now rewrite Nat2Z.id. }
  auto 10.
Qed.

End SimWrites.

(** ** Seeding, writing and polling against the stand-in *)

Module SimCompose.
Import PgSim.

Abbreviation St := (State World Z).



(** The monitor is connected to the three regions, the primary answers,
    has its table, and the table holds [c] rows. *)
Definition ready_with (c : Z) (st : St) : Prop :=
  connections st !! "us-west" = Some 5441
  /\ is_Some (connections st !! "us-east")
  /\ is_Some (connections st !! "eu-west")
  /\ exists srv tb,
       servers (world st) !! 5441 = Some srv
       /\ online srv = true
       /\ test_table (database srv) = Some tb
       /\ Z.of_nat (length (rows tb)) = c.

Lemma ready_with_ready c st : ready_with c st -> SimRun.ready st.
Proof.
  intros (Hw & He & Hu & srv & tb & Hs & Ho & Ht & _).
  repeat split; try assumption. now exists srv, tb.
Qed.

Lemma poll_when_ready_with c (st : St) :
  ready_with c st ->
  exists snap st',
    check_replication_status st = (Ok snap, st')
    /\ ready_with c st'
    /\ world st' = world st
    /\ primary_record_count (primary_status snap) = c.
Proof.
  intros Hr. pose proof Hr as (Hw & He & Hu & srv & tb & Hs & Ho & Ht & Hc).
  destruct (SimRun.poll_when_ready st (ready_with_ready c st Hr))
    as (snap & st' & E & _).
  pose proof (SimRun.poll_reads_only st) as [Hsw Hsc].
  rewrite E in Hsw, Hsc. simpl in Hsw, Hsc.
  exists snap, st'. split; [exact E |]. split.
  { unfold ready_with. rewrite Hsw, Hsc. repeat split; try assumption.
    now exists srv, tb. }
  split; [exact Hsw |].
  destruct (check_replication_status_primary st 5441 5441 (world st)
              (Z.of_nat (length (rows tb))) (world st)
              (max_of (map id (rows tb))) (world st) snap st')
    as [Hpc _]; try assumption.
  - reflexivity.
  - simpl. unfold select_count, reach. rewrite Hs, Ho. simpl. now rewrite Ht.
  - simpl. unfold select_max_id, reach. rewrite Hs, Ho. simpl. now rewrite Ht.
  - now rewrite Hpc.
Qed.

Lemma writes_when_ready_with c count (st : St) :
  ready_with c st ->
  exists st',
    simulate_writes count st = (Ok tt, st')
    /\ ready_with (c + Z.of_nat (Z.to_nat count)) st'
    /\ clock (world st') = clock (world st).
Proof.
  intros (Hw & He & Hu & srv & tb & Hs & Ho & Ht & Hc).
  destruct (SimWrites.simulate_writes_rows count st 5441 srv tb Hw Hs Ho Ht)
    as (st' & srv' & added & E & Hs' & Ho' & Ht' & Hlen & _ & _ & _ & Hk & Hc' & _).
  exists st'. split; [exact E |]. split; [| exact Hk].
  unfold ready_with. rewrite Hc'. repeat split; try assumption.
  eexists srv', _. split; [exact Hs' |]. split; [exact Ho' |].
  split; [exact Ht' |]. simpl. rewrite length_app. lia.
Qed.

(** One pass: a poll, five more rows on the even passes, five seconds. *)
Lemma tick_when_ready_with c iteration (st : St) :
  ready_with c st ->
  exists st',
    monitoring_tick iteration st = (Ok tt, st')
    /\ ready_with (c + (if iteration mod 2 =? 0 then 5 else 0)) st'
    /\ clock (world st') = clock (world st) + 5000.
Proof.
  intros Hr. unfold monitoring_tick.
  assert (exists st1,
            (if iteration mod 2 =? 0 then simulate_writes 5 else ret tt) st
            = (Ok tt, st1)
            /\ ready_with (c + (if iteration mod 2 =? 0 then 5 else 0)) st1
            /\ clock (world st1) = clock (world st))
    as (st1 & E1 & Hr1 & Hk1).
  { destruct (iteration mod 2 =? 0).
    - now apply (writes_when_ready_with c 5).
    - exists st. rewrite Z.add_0_r. auto. }
  rewrite (bind_ok _ _ _ _ _ E1).
  destruct (poll_when_ready_with _ st1 Hr1) as (snap & st2 & E2 & Hr2 & Hw2 & _).
  rewrite (bind_ok _ _ _ _ _ E2).
  assert (exists st3,
            (if iteration mod 2 =? 0 then print_status snap else ret tt) st2
            = (Ok tt, st3)
            /\ connections st3 = connections st2 /\ world st3 = world st2)
    as (st3 & E3 & Hc3 & Hw3).
  { destruct (iteration mod 2 =? 0).
    - destruct (print_status_calls snap st2) as (st3 & E & _ & _ & _ & Hc & Hw).
      now exists st3.
    - exists st2. auto. }
  rewrite (bind_ok _ _ _ _ _ E3). rewrite sleep_calls.
  eexists. split; [reflexivity |]. unfold ready_with. simpl.
  rewrite Hc3, Hw3. destruct Hr2 as (? & ? & ? & srv & tb & ? & ? & ? & ?).
  split; [| rewrite Hw2, Hk1; lia].
  repeat split; try assumption. now exists srv, tb.
Qed.

(** The loop makes exactly the passes that fit: [k] of them when what is
    left of [duration] is above [5 (k - 1)] and at most [5 k] seconds. *)
Lemma loop_when_ready_with (k : nat) :
  forall fuel duration start iteration c (st : St),
    ready_with c st ->
    (k <= fuel)%nat ->
    duration * 1000 - (clock (world st) - start) <= 5000 * Z.of_nat k ->
    (k = 0%nat
     \/ 5000 * (Z.of_nat k - 1) < duration * 1000 - (clock (world st) - start)) ->
    exists st',
      monitoring_loop fuel duration start iteration st
      = Some (Ok (iteration + Z.of_nat k), st')
      /\ ready_with (c + 5 * ((iteration + Z.of_nat k) / 2 - iteration / 2)) st'
      /\ clock (world st') = clock (world st) + 5000 * Z.of_nat k.
Proof.
  induction k as [| k IH]; intros fuel duration start iteration c st Hr Hfuel Hup Hlow.
  - destruct fuel; simpl;
      (destruct (clock (world st) - start <? duration * 1000) eqn:Hlt;
       [apply Z.ltb_lt in Hlt; lia |]);
      (eexists; split; [rewrite Z.add_0_r; reflexivity |]);
      simpl; rewrite Z.add_0_r, Z.sub_diag, Z.mul_0_r, !Z.add_0_r;
      (split; [| reflexivity]);
      destruct Hr as (? & ? & ? & srv & tb & ? & ? & ? & ?);
      unfold ready_with; simpl; repeat split; try assumption;
      now exists srv, tb.
  - destruct fuel as [| fuel]; [lia |]. simpl.
    destruct (clock (world st) - start <? duration * 1000) eqn:Hlt.
    2: { apply Z.ltb_ge in Hlt. lia. }
    destruct (tick_when_ready_with c (iteration + 1)
                (with_world (world st) st)) as (st1 & E & Hr1 & Hk1).
    { destruct Hr as (? & ? & ? & srv & tb & ? & ? & ? & ?).
      unfold ready_with. simpl. repeat split; try assumption.
      now exists srv, tb. }
    rewrite E. simpl in Hk1.
    destruct (IH fuel duration start (iteration + 1) _ st1 Hr1)
      as (st' & El & Hr' & Hk'); [lia | lia | lia |].
    exists st'. split.
    { rewrite El. do 3 f_equal. lia. }
    split; [| lia].
    replace (c + 5 * ((iteration + Z.of_nat (S k)) / 2 - iteration / 2))
      with (c + (if (iteration + 1) mod 2 =? 0 then 5 else 0)
            + 5 * ((iteration + 1 + Z.of_nat k) / 2 - (iteration + 1) / 2));
      [exact Hr' |].
    replace (iteration + Z.of_nat (S k)) with (iteration + 1 + Z.of_nat k)
      by lia.
    destruct ((iteration + 1) mod 2 =? 0) eqn:Hev.
    + apply Z.eqb_eq in Hev. Z.div_mod_to_equations. lia.
    + apply Z.eqb_neq in Hev. Z.div_mod_to_equations. lia.
Qed.

End SimCompose.

Module SimRuns.
Import PgSim.

Abbreviation St := (State World Z).

(** Seeding leaves the primary ready with an empty table. *)
Lemma setup_when_connected (st : St) :
  connections st !! "us-west" = Some 5441 ->
  is_Some (connections st !! "us-east") ->
  is_Some (connections st !! "eu-west") ->
  SimRun.online_at (world st) 5441 ->
  exists st',
    setup_primary st = (Ok tt, st')
    /\ SimCompose.ready_with 0 st'
    /\ clock (world st') = clock (world st).
Proof.
  intros Hw He Hu (srv & Hs & Ho).
  destruct (Seeding.setup_primary_seeds st 5441 srv Hw Hs Ho)
    as (st' & E & Hc & Hs' & Hk).
  exists st'. split; [exact E |]. split; [| exact Hk].
  unfold SimCompose.ready_with. rewrite Hc. repeat split; try assumption.
  eexists _, _. split; [exact Hs' |]. split; [exact Ho |].
  split; reflexivity.
Qed.

Lemma prologue_seeds (w : World) :
  SimRun.online_at w 5441 -> SimRun.online_at w 5442 -> SimRun.online_at w 5443 ->
  exists st1,
    run_prologue (init w) = (Ok (Some (clock w + 3000)), st1)
    /\ SimCompose.ready_with 0 st1
    /\ clock (world st1) = clock w + 3000.
Proof.
  intros Hw He Hu. unfold run_prologue.
  erewrite bind_ok by reflexivity.
  destruct (SimRun.connect_all_online (snd (print_banner (init w))))
    as (st0 & E0 & Hc0 & Hw0); try assumption; try reflexivity.
  rewrite (bind_ok _ _ _ _ _ E0). cbn [negb].
  destruct (setup_when_connected st0) as (st2 & E2 & Hr2 & Hk2).
  { rewrite Hc0. reflexivity. }
  { rewrite Hc0. eexists. reflexivity. }
  { rewrite Hc0. eexists. reflexivity. }
  { rewrite Hw0. exact Hw. }
  rewrite (bind_ok _ _ _ _ _ E2).
  erewrite bind_ok by reflexivity.
  erewrite bind_ok by (apply sleep_calls).
  unfold bind, call_total, ret. simpl.
  rewrite Hk2, Hw0. simpl.
  eexists. split; [reflexivity |]. simpl. split; [| lia].
  destruct Hr2 as (? & ? & ? & srv & tb & ? & ? & ? & ?).
  unfold SimCompose.ready_with. simpl. repeat split; try assumption.
  now exists srv, tb.
Qed.

(** The number of passes of a run of [duration] seconds against the
    stand-in, where only the sleeps take time. *)
Definition pass_count (duration : Z) : nat := Z.to_nat ((duration + 4) / 5).

Lemma run_when_online duration (w : World) fuel :
  SimRun.online_at w 5441 -> SimRun.online_at w 5442 -> SimRun.online_at w 5443 ->
  (pass_count duration <= fuel)%nat ->
  exists st',
    run_monitoring fuel duration (init w) = Some (Ok tt, st')
    /\ calls st'
       = [Call_connect_all; Call_setup_primary; Call_sleep 3]
           ++ schedule 1 (pass_count duration)
    /\ length (metrics_history st') = pass_count duration
    /\ SimCompose.ready_with (5 * (Z.of_nat (pass_count duration) / 2)) st'
    /\ clock (world st') = clock w + 3000 + 5000 * Z.of_nat (pass_count duration).
Proof.
  intros Hw He Hu Hfuel.
  destruct (prologue_seeds w Hw He Hu) as (st1 & E1 & Hr1 & Hk1).
  unfold run_monitoring. rewrite E1.
  destruct (SimCompose.loop_when_ready_with (pass_count duration) fuel duration
              (clock w + 3000) 0 0 st1 Hr1 Hfuel)
    as (st2 & E2 & Hr2 & Hk2).
  { rewrite Hk1. unfold pass_count. Z.div_mod_to_equations. lia. }
  { rewrite Hk1. unfold pass_count.
    destruct (Z.to_nat ((duration + 4) / 5)) eqn:Hp; [now left | right].
    Z.div_mod_to_equations. lia. }
  rewrite E2.
  apply run_prologue_returns in E1 as (Hc1 & Hh1).
  apply monitoring_loop_returns in E2
    as (ticks & _ & _ & Hn & _ & Hc2 & Hh2 & _).
  assert (ticks = pass_count duration) as -> by lia.
  destruct (print_summary_returns duration st2)
    as (st3 & E3 & Hw3 & Hc3 & Hh3 & _ & Hn3 & _).
  exists st3. rewrite E3. split; [reflexivity |].
  rewrite Hc3, Hh3, Hc2, Hh2, Hc1, Hh1, Hw3.
  split; [reflexivity |]. split; [reflexivity |]. split; [| lia].
  simpl in Hr2. rewrite Z.add_0_l, Z.sub_0_r in Hr2.
  destruct Hr2 as (? & ? & ? & srv & tb & ? & ? & ? & ?).
  unfold SimCompose.ready_with. rewrite Hw3, Hn3.
  repeat split; try assumption. now exists srv, tb.
Qed.

End SimRuns.

(** ** Further worlds used to run the definitions *)

Module Cases.
Import PgSim.

(** us-east holds more rows than the primary. *)
Definition replica_ahead : State World Z :=
  connected (world_of (server_with 3) (server_with 7) (server_with 3) 1500).

Definition us_east_ahead : ReplicaMetrics :=
  {| region := "us-east"; record_count := 7; max_id := 7;
     lag_records := -4; lag_ids := -4; is_healthy := true |}.

(** A monitor that never connected to eu-west; us-east is 10 behind. *)
Definition without_eu_west : State World Z :=
  with_connections (<["us-west" := 5441]> (<["us-east" := 5442]> ∅))
    (init (world_of (server_with 12) (server_with 2) empty_server 1500)).

End Cases.

(* ===================================================================== *)
(** * Further properties, proved *)
(* ===================================================================== *)

(** X1. In the snapshot of a poll that returns, every measured replica
    entry has [lag_records] and [lag_ids] equal to the primary's
    [record_count] and [max_id] minus its own, and is healthy exactly
    when [lag_records] is below 10, whatever [lag_ids] is; an entry with
    an [error] field is never healthy. *)
Theorem snapshot_entries_are_consistent
    {W Conn Cursor : Type} `{!Driver W Conn Cursor}
    (st st' : State W Conn) (snap : StatusSnapshot) :
  check_replication_status st = (Ok snap, st') ->
  (forall m, Measured m ∈ replicas snap ->
     lag_records m
     = primary_record_count (primary_status snap) - record_count m
     /\ lag_ids m = primary_max_id (primary_status snap) - max_id m
     /\ (is_healthy m = true <-> lag_records m < 10))
  /\ (forall f, Failed f ∈ replicas snap -> failed_is_healthy f = false).
Proof.
  intros E.
  apply check_replication_status_returns in E as (new & _ & _ & Hf & _).
  rewrite Forall_forall in Hf. split.
  - intros m Hin. destruct (Hf _ Hin) as (Hl & Hi & Hh).
    split; [exact Hl |]. split; [exact Hi |].
    rewrite Hh. apply Z.ltb_lt.
  - intros f Hin. exact (Hf _ Hin).
Qed.

Lemma snapshot_entries_are_consistent_witness :
  (forall m, Measured m ∈ replicas (Demo.snapshot_of Demo.lagging) ->
     lag_records m
     = primary_record_count (primary_status (Demo.snapshot_of Demo.lagging))
       - record_count m
     /\ lag_ids m
        = primary_max_id (primary_status (Demo.snapshot_of Demo.lagging))
          - max_id m
     /\ (is_healthy m = true <-> lag_records m < 10))
  /\ (forall f, Failed f ∈ replicas (Demo.snapshot_of Demo.lagging) ->
        failed_is_healthy f = false).
Proof.
  apply (snapshot_entries_are_consistent Demo.lagging
           (snd (check_replication_status Demo.lagging))).
  vm_compute. reflexivity.
Defined.

(** X2. A poll that returns appends no alert for a replica whose entry
    is healthy, which includes every negative lag, and none for a replica
    whose query failed, although that entry has [is_healthy = false]. *)
Theorem healthy_or_failed_replica_raises_no_alert
    {W Conn Cursor : Type} `{!Driver W Conn Cursor}
    (st st' : State W Conn) (snap : StatusSnapshot) (entry : ReplicaStatus) :
  check_replication_status st = (Ok snap, st') ->
  entry ∈ replicas snap ->
  status_is_healthy entry = true \/ has_error entry = true ->
  exists new,
    alerts st' = alerts st ++ new
    /\ filter (fun a => alert_region a = status_region entry) new = [].
Proof.
  intros E Hin Hq.
  apply check_replication_status_returns in E
    as (new & Hrs & _ & _ & Ha & Hk & _).
  exists new. split; [exact Ha |].
  apply no_alert_for_quiet_entry with (entries := replicas snap);
    try assumption.
  - now apply poll_regions_distinct.
  - destruct entry as [m | f]; simpl in *; [| reflexivity].
    destruct Hq as [-> | Hq]; [reflexivity | discriminate].
Qed.

Lemma healthy_or_failed_replica_raises_no_alert_witness :
  exists new,
    alerts (snd (check_replication_status Cases.replica_ahead))
    = alerts Cases.replica_ahead ++ new
    /\ filter (fun a => alert_region a = "us-east") new = [].
Proof.
  apply (healthy_or_failed_replica_raises_no_alert Cases.replica_ahead
           (snd (check_replication_status Cases.replica_ahead))
           (Demo.snapshot_of Cases.replica_ahead)
           (Measured Cases.us_east_ahead)).
  - vm_compute. reflexivity.
  - vm_compute. left.
  - left. reflexivity.
Defined.

(** X3. The alerts a returning poll appends are, in the order of the
    replica entries, one per measured entry with [is_healthy = false],
    carrying its region and [lag_records]; so a poll appends at most two
    alerts. *)
Theorem poll_alerts_follow_entries
    {W Conn Cursor : Type} `{!Driver W Conn Cursor}
    (st st' : State W Conn) (snap : StatusSnapshot) :
  check_replication_status st = (Ok snap, st') ->
  exists new,
    alerts st' = alerts st ++ new
    /\ map (fun a => (alert_region a, alert_lag_count a)) new
       = flat_map
           (fun entry =>
              match entry with
              | Measured m =>
                  if is_healthy m then [] else [(region m, lag_records m)]
              | Failed _ => []
              end) (replicas snap)
    /\ (length new <= 2)%nat.
Proof.
  intros E.
  apply check_replication_status_returns in E
    as (new & Hrs & _ & _ & Ha & Hk & _).
  exists new. split; [exact Ha |]. split; [exact Hk |].
  rewrite <- (length_map alert_key), Hk.
  etransitivity; [apply length_alerts_due |].
  rewrite <- (length_map status_region), Hrs. reflexivity.
Qed.

Lemma poll_alerts_follow_entries_witness :
  exists new,
    alerts (snd (check_replication_status Demo.lagging))
    = alerts Demo.lagging ++ new
    /\ map (fun a => (alert_region a, alert_lag_count a)) new
       = flat_map
           (fun entry =>
              match entry with
              | Measured m =>
                  if is_healthy m then [] else [(region m, lag_records m)]
              | Failed _ => []
              end) (replicas (Demo.snapshot_of Demo.lagging))
    /\ (length new <= 2)%nat.
Proof.
  apply (poll_alerts_follow_entries Demo.lagging
           (snd (check_replication_status Demo.lagging))
           (Demo.snapshot_of Demo.lagging)).
  vm_compute. reflexivity.
Defined.

(** X4. Without a connection for the primary, [setup_primary],
    [simulate_writes] and [check_replication_status] each raise
    [KeyError('us-west')] before anything is sent to a server; no
    snapshot and no alert is recorded. *)
Theorem missing_primary_connection_raises_key_error
    {W Conn Cursor : Type} `{!Driver W Conn Cursor} (st : State W Conn) :
  connections st !! "us-west" = None ->
  (exists st',
     setup_primary st = (Raise (key_error "us-west"), st')
     /\ world st' = world st)
  /\ (forall count, exists st',
        simulate_writes count st = (Raise (key_error "us-west"), st')
        /\ world st' = world st)
  /\ (exists st',
        check_replication_status st = (Raise (key_error "us-west"), st')
        /\ world st' = world st
        /\ metrics_history st' = metrics_history st
        /\ alerts st' = alerts st).
Proof.
  intros Hc. split; [| split].
  - unfold setup_primary, bind, enter, logger, modify, connection. simpl.
    rewrite Hc. eexists. split; reflexivity.
  - intros count.
    unfold simulate_writes, bind, enter, modify, connection. simpl.
    rewrite Hc. eexists. split; reflexivity.
  - unfold check_replication_status, bind, enter, modify, connection. simpl.
    rewrite Hc. eexists. repeat split; reflexivity.
Qed.

Lemma missing_primary_connection_raises_key_error_witness :
  exists st',
    check_replication_status Demo.fresh = (Raise (key_error "us-west"), st')
    /\ world st' = world Demo.fresh
    /\ metrics_history st' = metrics_history Demo.fresh
    /\ alerts st' = alerts Demo.fresh.
Proof.
  apply (missing_primary_connection_raises_key_error Demo.fresh). reflexivity.
Defined.

(** X5. The lookup of a replica's connection is outside the [try]: when
    the primary and us-east answer, us-east is ten or more records
    behind and eu-west has no connection, the poll raises
    [KeyError('eu-west')]; the alert for us-east has been appended, but
    no snapshot is recorded. *)
Theorem missing_replica_connection_aborts_poll
    {W Conn Cursor : Type} `{!Driver W Conn Cursor}
    (st : State W Conn) c cur w1 pc w2 m w3 ce cure w4 n w5 me w6 :
  connections st !! "us-west" = Some c ->
  pg_cursor c (world st) = (Ok cur, w1) ->
  pg_select_count cur replication_test w1 = (Ok pc, w2) ->
  pg_select_max_id cur replication_test w2 = (Ok m, w3) ->
  connections st !! "us-east" = Some ce ->
  pg_cursor ce (snd (now_isoformat (pg_cursor_close cur w3))) = (Ok cure, w4) ->
  pg_select_count cure replication_test w4 = (Ok n, w5) ->
  pg_select_max_id cure replication_test w5 = (Ok me, w6) ->
  10 <= pc - n ->
  connections st !! "eu-west" = None ->
  exists st' a,
    check_replication_status st = (Raise (key_error "eu-west"), st')
    /\ metrics_history st' = metrics_history st
    /\ alerts st' = alerts st ++ [a]
    /\ alert_region a = "us-east"
    /\ alert_lag_count a = pc - n.
Proof.
  intros Hc Hcur Hn Hm Hce Hcure Hne Hme Hlag Hnone.
  unfold check_replication_status.
  erewrite bind_ok by (unfold enter, modify; reflexivity).
  erewrite bind_ok by (unfold connection; simpl; rewrite Hc; reflexivity).
  erewrite bind_ok by (unfold call; simpl; rewrite Hcur; reflexivity).
  erewrite bind_ok by (unfold call; simpl; rewrite Hn; reflexivity).
  erewrite bind_ok by (unfold call; simpl; rewrite Hm; reflexivity).
  erewrite bind_ok by (unfold call_unit; reflexivity).
  destruct (now_isoformat (pg_cursor_close cur w3)) as [t w'] eqn:Hnow.
  erewrite bind_ok by (unfold call_total; simpl; rewrite Hnow; reflexivity).
  simpl in Hcure. cbn [for_each].
  match goal with
  | |- context [check_replica ?x ?y "us-east" ?status] =>
      destruct (check_replica_lagging x y "us-east" status
                  (with_world w'
                     (with_world (pg_cursor_close cur w3)
                        (with_world w3 (with_world w2 (with_world w1
                           (with_calls
                              (calls st ++ [Call_check_replication_status])
                              st))))))
                  ce cure w4 n w5 me w6)
        as (st1 & a & E1 & Ha & Hr & Hl & Hh & Hk); try assumption
  end.
  erewrite bind_raise.
  2: { erewrite bind_ok by exact E1. erewrite bind_raise; [reflexivity |].
       apply check_replica_without_connection. rewrite Hk. exact Hnone. }
  exists st1, a. simpl in *. repeat split; assumption.
Qed.

Lemma missing_replica_connection_aborts_poll_witness :
  exists st' a,
    check_replication_status Cases.without_eu_west
    = (Raise (key_error "eu-west"), st')
    /\ metrics_history st' = metrics_history Cases.without_eu_west
    /\ alerts st' = alerts Cases.without_eu_west ++ [a]
    /\ alert_region a = "us-east"
    /\ alert_lag_count a = 12 - 2.
Proof.
  apply (missing_replica_connection_aborts_poll Cases.without_eu_west
           5441 5441 (world Cases.without_eu_west)
           12 (world Cases.without_eu_west)
           (Some 12) (world Cases.without_eu_west)
           5442 5442 (world Cases.without_eu_west)
           2 (world Cases.without_eu_west)
           (Some 2) (world Cases.without_eu_west)).
  - reflexivity.
  - reflexivity.
  - reflexivity.
  - reflexivity.
  - reflexivity.
  - reflexivity.
  - reflexivity.
  - reflexivity.
  - lia.
  - reflexivity.
Defined.

(** X6. On a monitor without connections, [connect_all] never raises and
    logs, after its opening line, exactly one record per configured
    region, [INFO] or [ERROR]; it answers true exactly when none of them
    is an [ERROR]. A failure for one region does not stop the attempts
    for the next ones. *)
Theorem connect_all_logs_every_region
    {W Conn Cursor : Type} `{!Driver W Conn Cursor} (st : State W Conn) :
  NoDup (map fst (regions st)) ->
  connections st = ∅ ->
  exists b st' recs,
    connect_all st = (Ok b, st')
    /\ log st'
       = log st ++ {| level := INFO; text := "Connecting to all regions..." |}
           :: recs
    /\ length recs = length (regions st)
    /\ (b = true <-> forall r, r ∈ recs -> level r = INFO).
Proof.
  intros Hnd Hempty. unfold connect_all.
  erewrite bind_ok by (unfold enter, modify; reflexivity).
  erewrite bind_ok by (unfold logger, modify; reflexivity).
  erewrite bind_ok by (unfold gets; reflexivity).
  match goal with
  | |- context [bind (for_ ?items connect_region) _ ?s] =>
      destruct (connect_loop_logs items s)
        as (st' & recs & E & Hl & Hn & Hr & Hs & _)
  end.
  { exact Hnd. }
  { intros r _. simpl. rewrite Hempty. apply lookup_empty. }
  rewrite (bind_ok _ _ _ _ _ E). unfold gets. simpl in *.
  eexists _, st', recs. split; [reflexivity |].
  rewrite Hl, <- app_assoc. split; [reflexivity |]. split; [exact Hn |].
  rewrite Hr, Hs, Hempty, map_size_empty, Nat.eqb_eq, <- Hn. simpl.
  apply all_info_iff.
Qed.

Lemma connect_all_logs_every_region_witness :
  exists b st' recs,
    connect_all Demo.fresh_east_down = (Ok b, st')
    /\ log st'
       = log Demo.fresh_east_down
           ++ {| level := INFO; text := "Connecting to all regions..." |}
           :: recs
    /\ length recs = length (regions Demo.fresh_east_down)
    /\ (b = true <-> forall r, r ∈ recs -> level r = INFO).
Proof.
  apply (connect_all_logs_every_region Demo.fresh_east_down).
  - exact default_regions_distinct.
  - reflexivity.
Defined.

(** X7. The connections are only ever kept under the names of configured
    regions. This holds for a new monitor and is preserved by
    [connect_all] and by a whole run; the configured regions themselves
    never change, and seeding, writes, polls and reports leave the
    connections exactly as they are. *)
Theorem connections_stay_configured
    {W Conn Cursor : Type} `{!Driver W Conn Cursor} :
  (forall w : W, configured (init w : State W Conn))
  /\ (forall st : State W Conn,
        configured st ->
        configured (snd (connect_all st))
        /\ regions (snd (connect_all st)) = regions st)
  /\ (forall fuel duration (st : State W Conn) r,
        run_monitoring fuel duration st = Some r ->
        configured st ->
        configured (snd r) /\ regions (snd r) = regions st)
  /\ (forall st : State W Conn,
        same_config st (snd (setup_primary st)))
  /\ (forall count (st : State W Conn),
        same_config st (snd (simulate_writes count st)))
  /\ (forall st : State W Conn,
        same_config st (snd (check_replication_status st)))
  /\ (forall status (st : State W Conn),
        same_config st (snd (print_status status st))).
Proof.
  split; [| split; [| split; [| split; [| split; [| split]]]]].
  - intros w. unfold configured. simpl. rewrite dom_empty. apply empty_subseteq.
  - intros st Hc. pose proof (connect_all_config_kept st) as Hk.
    split; [now apply (config_kept_configured st) | apply Hk].
  - intros fuel duration st r E Hc.
    pose proof (run_monitoring_config_kept fuel duration st r E) as Hk.
    split; [now apply (config_kept_configured st) | apply Hk].
  - apply setup_primary_same_config.
  - intros count. apply simulate_writes_same_config.
  - apply check_replication_status_same_config.
  - intros status. apply print_status_same_config.
Qed.

Lemma connections_stay_configured_witness :
  configured (snd (connect_all Demo.fresh_east_down))
  /\ regions (snd (connect_all Demo.fresh_east_down))
     = regions Demo.fresh_east_down.
Proof.
  destruct (@connections_stay_configured PgSim.World Z Z _)
    as (Hinit & Hconnect & _).
  apply (Hconnect Demo.fresh_east_down).
  apply (Hinit (world Demo.fresh_east_down)).
Defined.

(** X8. The history is append-only: whatever a method does, and whether
    it returns or raises, the snapshots recorded before are afterwards
    still there, in place and unchanged. A poll that returns appends
    exactly the snapshot it returns; [connect_all], [setup_primary],
    [simulate_writes], [create_alert] and [print_status] append none. *)
Theorem history_is_append_only
    {W Conn Cursor : Type} `{!Driver W Conn Cursor} :
  (forall (st : State W Conn) snap st',
     check_replication_status st = (Ok snap, st') ->
     metrics_history st' = metrics_history st ++ [snap])
  /\ (forall (st : State W Conn) e st',
        check_replication_status st = (Raise e, st') ->
        metrics_history st `prefix_of` metrics_history st')
  /\ (forall fuel duration (st : State W Conn) r,
        run_monitoring fuel duration st = Some r ->
        metrics_history st `prefix_of` metrics_history (snd r))
  /\ (forall st : State W Conn,
        metrics_history (snd (connect_all st)) = metrics_history st)
  /\ (forall st : State W Conn,
        metrics_history (snd (setup_primary st)) = metrics_history st)
  /\ (forall count (st : State W Conn),
        metrics_history (snd (simulate_writes count st)) = metrics_history st)
  /\ (forall region lag (st : State W Conn),
        metrics_history (snd (create_alert region lag st)) = metrics_history st)
  /\ (forall status (st : State W Conn),
        metrics_history (snd (print_status status st)) = metrics_history st).
Proof.
  split; [| split; [| split; [| split; [| split; [| split; [| split]]]]]].
  - intros st snap st' E.
    apply check_replication_status_returns in E
      as (new & _ & _ & _ & _ & _ & Hh & _). exact Hh.
  - intros st e st' E.
    pose proof (check_replication_status_keeps_history st) as Hk.
    now rewrite E in Hk.
  - intros fuel duration st r.
    apply (run_monitoring_steps history_kept);
      first [ apply history_kept_trans
            | apply run_prologue_keeps_history
            | apply monitoring_tick_keeps_history
            | apply print_summary_keeps_history
            | intros; unfold history_kept; simpl; reflexivity ].
  - intros st. destruct (connect_all_returns st) as (st' & -> & _ & Hh & _).
    exact Hh.
  - intros st. apply (setup_primary_calls st).
  - intros count st. apply (simulate_writes_calls count st).
  - intros region lag st.
    destruct (create_alert_eq region lag st)
      as (a & st' & -> & _ & _ & _ & _ & Hh & _). exact Hh.
  - intros status st.
    destruct (print_status_calls status st) as (st' & -> & _ & Hh & _).
    exact Hh.
Qed.

Lemma history_is_append_only_witness :
  metrics_history (snd (check_replication_status Demo.lagging))
  = metrics_history Demo.lagging ++ [Demo.snapshot_of Demo.lagging].
Proof.
  destruct (@history_is_append_only PgSim.World Z Z _) as (Hpoll & _).
  apply (Hpoll Demo.lagging). vm_compute. reflexivity.
Defined.

(** X9. [print_status] is a pure report: it never raises, sends nothing
    to a server and logs nothing, and it leaves the history, the alerts
    and the connections as they are. The lines it prints are determined
    by the snapshot and the alert list alone. *)
Theorem print_status_only_prints
    {W Conn Cursor : Type} `{!Driver W Conn Cursor}
    (status : StatusSnapshot) (st : State W Conn) :
  exists st',
    print_status status st = (Ok tt, st')
    /\ stdout st' = stdout st ++ status_lines status (alerts st)
    /\ world st' = world st
    /\ log st' = log st
    /\ metrics_history st' = metrics_history st
    /\ alerts st' = alerts st
    /\ connections st' = connections st.
Proof.
  destruct (print_status_prints status st)
    as (st' & E & Hs & Hw & Hl & _ & Hh & Ha & Hn & _).
  exists st'. simpl in *. auto 10.
Qed.

(** X10. [print_summary] never raises and changes nothing but the
    output. It makes seven [print] calls when there is no alert;
    otherwise a heading and one call for each of the last five alerts,
    or for all of them when there are fewer, come before the closing
    rule. *)
Theorem print_summary_lists_last_five_alerts
    {W Conn Cursor : Type} `{!Driver W Conn Cursor}
    (duration : Z) (st : State W Conn) :
  exists st',
    print_summary duration st = (Ok tt, st')
    /\ stdout st'
       = stdout st
           ++ summary_lines duration (length (metrics_history st)) (alerts st)
    /\ length (stdout st')
       = (length (stdout st) + 7
          + match alerts st with
            | [] => 0
            | _ :: _ => 1 + Nat.min 5 (length (alerts st))
            end)%nat
    /\ last5 (alerts st) `suffix_of` alerts st
    /\ world st' = world st
    /\ log st' = log st
    /\ metrics_history st' = metrics_history st
    /\ alerts st' = alerts st.
Proof.
  destruct (print_summary_prints duration st)
    as (st' & E & Hs & Hw & Hl & _ & Hh & Ha & _).
  destruct (last5_suffix (alerts st)) as [Hsuf Hlen].
  exists st'. split; [exact E |]. split; [exact Hs |].
  split; [| auto 10].
  rewrite Hs, length_app. unfold summary_lines.
  destruct (alerts st) as [| a0 rest]; simpl; [lia |].
  rewrite length_app, length_map. simpl. simpl in Hlen. rewrite Hlen. lia.
Qed.

(** X11. The report compares timestamps as strings against the first 19
    characters of the snapshot's: an alert whose timestamp extends these
    19 characters, as one raised in the same second with a fractional
    part does, is counted, and the report ends with the active-alerts
    line and the closing rule; an alert stamped with exactly these 19
    characters is not counted. *)
Theorem alerts_of_the_snapshot_second_are_active
    {W Conn Cursor : Type} `{!Driver W Conn Cursor}
    (status : StatusSnapshot) (st : State W Conn) (a : Alert) (rest : string) :
  a ∈ alerts st ->
  rest <> EmptyString ->
  alert_timestamp a = str_take 19 (timestamp status) +:+ rest ->
  exists st' before k,
    print_status status st = (Ok tt, st')
    /\ stdout st'
       = before ++ [nl +:+ "ACTIVE ALERTS: " +:+ Py.str (Z.of_nat k); rule]
    /\ (1 <= k <= length (alerts st))%nat
    /\ (forall b, alert_timestamp b = str_take 19 (timestamp status) ->
          b ∉ recent_alerts status (alerts st)).
Proof.
  intros Hin Hrest Hstamp.
  destruct (print_status_prints status st) as (st' & E & Hs & _).
  assert (Hrecent : exists y more, recent_alerts status (alerts st) = y :: more).
  { apply filter_nonempty with (x := a); [exact Hin |].
    rewrite Hstamp. now apply str_gt_proper_extension. }
  destruct Hrecent as (y & more & Hrecent).
  exists st'. eexists _, (length (recent_alerts status (alerts st))).
  split; [exact E |]. split; [| split].
  - rewrite Hs. unfold status_lines. rewrite Hrecent at 1.
    rewrite !app_assoc. rewrite <- (app_assoc _ [_] [rule]). reflexivity.
  - split; [rewrite Hrecent; simpl; lia |].
    unfold recent_alerts.
    clear. induction (alerts st) as [| x l IH]; simpl; [lia |].
    destruct (str_gt _ _); simpl; lia.
  - intros b Hb Hmem. unfold recent_alerts in Hmem.
    apply list_elem_of_In, filter_In in Hmem as [_ Hgt].
    rewrite Hb, str_gt_irrefl in Hgt. discriminate.
Qed.

Lemma alerts_of_the_snapshot_second_are_active_witness :
  exists st' before k,
    print_status (Demo.snapshot_of Demo.lagging)
      (snd (check_replication_status Demo.lagging)) = (Ok tt, st')
    /\ stdout st'
       = before ++ [nl +:+ "ACTIVE ALERTS: " +:+ Py.str (Z.of_nat k); rule]
    /\ (1 <= k
        <= length (alerts (snd (check_replication_status Demo.lagging))))%nat
    /\ (forall b,
          alert_timestamp b
          = str_take 19 (timestamp (Demo.snapshot_of Demo.lagging)) ->
          b ∉ recent_alerts (Demo.snapshot_of Demo.lagging)
                (alerts (snd (check_replication_status Demo.lagging)))).
Proof.
  apply (alerts_of_the_snapshot_second_are_active
           (Demo.snapshot_of Demo.lagging)
           (snd (check_replication_status Demo.lagging))
           {| alert_timestamp := "1970-01-01T00:00:01.500000";
              alert_region := "us-east";
              alert_severity := WARNING;
              alert_message := "High replication lag detected: 10 records behind";
              alert_lag_count := 10 |}
           ".500000").
  - vm_compute. left.
  - discriminate.
  - vm_compute. reflexivity.
Defined.





(** X14. Against the stand-in, where only the sleeps take time, a run of
    [duration] seconds next to three answering servers returns after
    exactly one pass per started five seconds: it records that many
    snapshots, writes five rows on every second pass, and ends three
    seconds plus five seconds per pass after it began. [main], with its
    30 seconds, makes six passes and writes 15 rows. *)
Theorem run_makes_one_pass_per_five_seconds
    (duration : Z) (w : PgSim.World) (fuel : nat) :
  SimRun.online_at w 5441 ->
  SimRun.online_at w 5442 ->
  SimRun.online_at w 5443 ->
  (SimRuns.pass_count duration <= fuel)%nat ->
  exists st' srv tb,
    run_monitoring fuel duration (init w) = Some (Ok tt, st')
    /\ calls st'
       = [Call_connect_all; Call_setup_primary; Call_sleep 3]
           ++ schedule 1 (SimRuns.pass_count duration)
    /\ length (metrics_history st') = SimRuns.pass_count duration
    /\ PgSim.servers (world st') !! 5441 = Some srv
    /\ PgSim.test_table (PgSim.database srv) = Some tb
    /\ Z.of_nat (length (PgSim.rows tb))
       = 5 * (Z.of_nat (SimRuns.pass_count duration) / 2)
    /\ PgSim.clock (world st')
       = PgSim.clock w + 3000 + 5000 * Z.of_nat (SimRuns.pass_count duration).
Proof.
  intros Hw He Hu Hfuel.
  destruct (SimRuns.run_when_online duration w fuel Hw He Hu Hfuel)
    as (st' & E & Hc & Hh & (_ & _ & _ & srv & tb & Hs & _ & Ht & Hn) & Hk).
  exists st', srv, tb. auto 10.
Qed.

Lemma run_makes_one_pass_per_five_seconds_witness :
  exists st' srv tb,
    main 6 (world Demo.fresh) = Some (Ok tt, st')
    /\ calls st'
       = [Call_connect_all; Call_setup_primary; Call_sleep 3]
           ++ schedule 1 (SimRuns.pass_count 30)
    /\ length (metrics_history st') = SimRuns.pass_count 30
    /\ PgSim.servers (world st') !! 5441 = Some srv
    /\ PgSim.test_table (PgSim.database srv) = Some tb
    /\ Z.of_nat (length (PgSim.rows tb))
       = 5 * (Z.of_nat (SimRuns.pass_count 30) / 2)
    /\ PgSim.clock (world st')
       = PgSim.clock (world Demo.fresh) + 3000
         + 5000 * Z.of_nat (SimRuns.pass_count 30).
Proof.
  apply (run_makes_one_pass_per_five_seconds 30 (world Demo.fresh) 6).
  - eexists. split; reflexivity.
  - eexists. split; reflexivity.
  - eexists. split; reflexivity.
  - vm_compute. lia.
Defined.
